(** * Face attendance pipeline: a shallow embedding of the identification core

    The development follows the Python sources module by module:

    - [Config]      utils/config.py
    - [Np]          the NumPy / scikit-learn primitives the sources call
    - [Matcher]     face_engine/matcher.py
    - [Cv]          images, as OpenCV and NumPy slicing treat them
    - [Embedder]    face_engine/embedder.py
    - [Detector]    face_engine/detector.py
    - [Liveness]    face_engine/liveness.py
    - [Database]    db/database.py, db/database_extensions.py, db/models.py
    - [Users]       the users table of db/database_extensions.py and the
                    login of auth/login.py
    - [Attendance]  pages/attendance.py
    - [Samples]     concrete stores, frames and models for the runs

    followed by the modules of facts, two per component: the properties
    the specification states, and further properties of the code.

    Floating-point arrays are idealised as lists of real numbers: every
    [np.float32]/[np.float64] value is an [R], arithmetic is exact and
    neither overflows nor rounds; a division by zero, which NumPy answers
    with [nan] or [inf], gives a value that is not a number.  Python
    exceptions are modelled by [option]: [None] at the outermost level of a
    result means that the call raised.  Pixel coordinates are integers ([Z]),
    relative bounding boxes are rationals ([Q]).  What the sources obtain
    from outside (MediaPipe's detections and landmarks, the ONNX session,
    the clocks) is an argument of the function that uses it. *)

From Stdlib Require Import String Ascii.
From Stdlib Require Import Reals Lra Psatz ZArith QArith Lia Bool List.
From Stdlib Require Import Sorted Permutation.
Import ListNotations.

(* ================================================================== *)
(** * utils/config.py *)
(* ================================================================== *)

Module Config.

Definition FACE_CROP_PADDING : Z := 20.
Definition EMBEDDING_DIM : nat := 512.
Definition COSINE_SIMILARITY_THRESHOLD : R := 0.80%R.
Definition LIVENESS_FRAMES_COUNT : nat := 3.
Definition LIVENESS_MOVEMENT_THRESHOLD : R := 0.0005%R.
Definition EYE_ASPECT_RATIO_THRESHOLD : R := 0.001%R.

End Config.

(* ================================================================== *)
(** * NumPy and scikit-learn primitives *)
(* ================================================================== *)

Module Np.

Local Open Scope R_scope.

(** A one-dimensional array. *)
Definition ndarray := list R.

(** [np.sum]. *)
Fixpoint sum (v : ndarray) : R :=
  match v with
  | [] => 0
  | x :: t => x + sum t
  end.

(** Inner product of two rows of the same length. *)
Fixpoint dot (a b : ndarray) : R :=
  match a, b with
  | x :: a', y :: b' => x * y + dot a' b'
  | _, _ => 0
  end.

(** [np.linalg.norm] of a one-dimensional array. *)
Definition norm (v : ndarray) : R := sqrt (dot v v).

(** [np.mean] and [np.var] (population variance, [ddof = 0]). *)
Definition mean (v : ndarray) : R := sum v / INR (length v).

Definition var (v : ndarray) : R :=
  mean (map (fun x => (x - mean v) * (x - mean v)) v).

(** [np.argmax]: index of the first occurrence of the maximum.  The scan
    keeps the running best and replaces it only by a strictly larger
    entry.  On an empty array NumPy raises [ValueError]. *)
Fixpoint argmax_from (best_i : nat) (best : R) (i : nat) (l : ndarray) : nat :=
  match l with
  | [] => best_i
  | x :: t =>
      if Rlt_dec best x
      then argmax_from i x (S i) t
      else argmax_from best_i best (S i) t
  end.

Definition argmax (l : ndarray) : option nat :=
  match l with
  | [] => None
  | x :: t => Some (argmax_from 0 x 1 t)
  end.

(** [np.pad(v, (0, n))]: append [n] zeros. *)
Definition pad_right (v : ndarray) (n : nat) : ndarray := v ++ repeat 0 n.

(** scikit-learn's [_handle_zeros_in_scale]: a zero row norm is replaced
    by one, so that an all-zero row is left as it is. *)
Definition handle_zeros_in_scale (n : R) : R :=
  if Req_dec_T n 0 then 1 else n.

(** [sklearn.preprocessing.normalize] on one row (L2). *)
Definition normalize (v : ndarray) : ndarray :=
  map (fun x => x / handle_zeros_in_scale (norm v)) v.

(** [sklearn.metrics.pairwise.cosine_similarity(X, Y)[0]] for a single
    query row [x] and the rows [ys]: both sides are L2-normalised and
    multiplied.  The library raises [ValueError] when the rows have no
    feature or when a row of [ys] has another length than [x]. *)
Definition same_dim (x : ndarray) (ys : list ndarray) : bool :=
  forallb (fun y => Nat.eqb (length y) (length x)) ys.

(** One entry of the similarity matrix. *)
Definition cosine (x y : ndarray) : R := dot (normalize x) (normalize y).

Definition cosine_similarity (x : ndarray) (ys : list ndarray)
  : option ndarray :=
  if Nat.eqb (length x) 0 then None
  else if same_dim x ys
       then Some (map (cosine x) ys)
       else None.

(** NumPy's true division of two scalars.  A zero divisor gives [inf] or
    [nan] (with a warning, no exception); [None] stands for both.  The
    sources divide sums of norms only, so that the infinity is the
    positive one, and what they do with the quotient (an average, a
    variance, the test that it is below a threshold, the test that the
    variance is above one) ends the same way for [inf] and for [nan]. *)
Definition true_divide (a b : R) : option R :=
  if Req_dec_T b 0 then None else Some (a / b).

(** [(a + b) / 2.0] on values that need not be numbers. *)
Definition average (a b : option R) : option R :=
  match a, b with
  | Some x, Some y => Some ((x + y) / 2)
  | _, _ => None
  end.

(** The entries of an array when all of them are numbers. *)
Fixpoint all_finite (l : list (option R)) : option ndarray :=
  match l with
  | [] => Some []
  | Some x :: t =>
      match all_finite t with
      | Some xs => Some (x :: xs)
      | None => None
      end
  | None :: _ => None
  end.

(** [np.var] of an array that may hold [nan] or [inf]: the result is a
    number only if every entry is. *)
Definition var_of (l : list (option R)) : option R :=
  match all_finite l with
  | Some xs => Some (var xs)
  | None => None
  end.


(** What it means for [i] to be the stable argmax of [l]. *)
Definition is_first_max (l : ndarray) (i : nat) : Prop :=
  (i < length l)%nat
  /\ (forall j, (j < length l)%nat -> nth j l 0 <= nth i l 0)
  /\ (forall j, (j < i)%nat -> nth j l 0 < nth i l 0).

(** The true maximum of a non-empty list, by the textbook fold. *)
Definition max_of (l : ndarray) : R :=
  match l with
  | [] => 0
  | x :: t => fold_left Rmax t x
  end.

End Np.

(* ================================================================== *)
(** * face_engine/matcher.py *)
(* ================================================================== *)

Module Matcher.

Local Open Scope R_scope.
Import Np.

(** One row of [Database.get_all_embeddings]:
    [(student_id, student_name, embedding)]. *)
Definition Candidate := (string * string * ndarray)%type.

Definition cand_id (c : Candidate) : string := fst (fst c).
Definition cand_name (c : Candidate) : string := snd (fst c).
Definition cand_embedding (c : Candidate) : ndarray := snd c.

(** The tuple [(student_id, student_name, similarity_score,
    search_time_ms)]. *)
Definition MatchResult := (option string * option string * R * R)%type.

(** [FaceMatcher.match_1_to_n].  [threshold] is [self.threshold];
    [t_start] and [t_end] are the two readings of [time.time()].  The
    outer [option] is [None] when the call raises. *)
Definition match_1_to_n (threshold : R) (query_embedding : ndarray)
    (database_embeddings : list Candidate) (t_start t_end : R)
  : option MatchResult :=
  if Nat.eqb (length database_embeddings) 0 then
    Some (None, None, 0, 0)
  else
    let student_ids := map cand_id database_embeddings in
    let student_names := map cand_name database_embeddings in
    let embeddings := map cand_embedding database_embeddings in
    match cosine_similarity query_embedding embeddings with
    | None => None
    | Some similarities =>
        match argmax similarities with
        | None => None
        | Some best_idx =>
            let best_score := nth best_idx similarities 0 in
            let search_time_ms := (t_end - t_start) * 1000 in
            if Rge_dec best_score threshold
            then Some (nth_error student_ids best_idx,
                       nth_error student_names best_idx,
                       best_score, search_time_ms)
            else Some (None, None, best_score, search_time_ms)
        end
    end.

(** A matcher built with the default constructor argument. *)
Definition default_match_1_to_n :=
  match_1_to_n Config.COSINE_SIMILARITY_THRESHOLD.

(** [FaceMatcher.calculate_similarity]: entry [[0][0]] of the similarity
    matrix of two single rows; [None] when scikit-learn raises. *)
Definition calculate_similarity (embedding1 embedding2 : ndarray) : option R :=
  match cosine_similarity embedding1 [embedding2] with
  | Some [similarity] => Some similarity
  | _ => None
  end.

End Matcher.

(* ================================================================== *)
(** * Images as OpenCV hands them over *)
(* ================================================================== *)

Module Cv.

Local Open Scope Z_scope.

(** A BGR pixel. *)
Definition Pixel := (Z * Z * Z)%type.

(** An array of shape [(shape_h, shape_w, 3)]; [at_ r c] is the pixel of
    row [r], column [c]. *)
Record Image := mkImage {
  shape_h : Z;
  shape_w : Z;
  at_ : Z -> Z -> Pixel
}.

(** [image.size]: the number of array elements. *)
Definition size (img : Image) : Z := shape_h img * shape_w img * 3.

(** [cv2.cvtColor(src, cv2.COLOR_BGR2RGB)]: the same pixels with their
    channels in reverse order.  OpenCV refuses an array without elements
    with [cv2.error]. *)
Definition cvtColor (src : Image) : option Image :=
  if size src =? 0 then None
  else Some {| shape_h := shape_h src;
               shape_w := shape_w src;
               at_ := fun r c => let '(b, g, r') := at_ src r c in (r', g, b) |}.

(** Python's reading of a slice bound [i] on an axis of length [n]: a
    negative bound counts from the end, and every bound is clipped to
    the axis. *)
Definition slice_bound (n i : Z) : Z :=
  if i <? 0 then Z.max (i + n) 0 else Z.min i n.

Definition slice_len (n start stop : Z) : Z :=
  Z.max 0 (slice_bound n stop - slice_bound n start).

(** [image[y0:y1, x0:x1]]. *)
Definition crop (img : Image) (y0 y1 x0 x1 : Z) : Image :=
  {| shape_h := slice_len (shape_h img) y0 y1;
     shape_w := slice_len (shape_w img) x0 x1;
     at_ := fun r c => at_ img (slice_bound (shape_h img) y0 + r)
                               (slice_bound (shape_w img) x0 + c) |}.

End Cv.

(* ================================================================== *)
(** * face_engine/embedder.py *)
(* ================================================================== *)

Module Embedder.

Local Open Scope R_scope.
Import Np.

(** The loaded ONNX session, seen from [generate_embedding]: preprocessing
    followed by [session.run], giving [outputs[0].flatten()].  [None]
    stands for an exception raised on the way (caught by the [except]
    clause of the caller). *)
Definition InferenceSession := Cv.Image -> option ndarray.

(** [self.session] is [None] when no model could be loaded. *)
Record FaceEmbedder := mkFaceEmbedder {
  session : option InferenceSession
}.

(** [FaceEmbedder._normalize_embedding]. *)
Definition _normalize_embedding (embedding : ndarray) : ndarray :=
  let norm := Np.norm embedding in
  if Req_dec_T norm 0 then embedding
  else map (fun x => x / norm) embedding.

(** The dimension check of [generate_embedding]: pad with zeros or
    truncate to [EMBEDDING_DIM]. *)
Definition fit_dimension (embedding : ndarray) : ndarray :=
  if Nat.eqb (length embedding) Config.EMBEDDING_DIM then embedding
  else if Nat.ltb (length embedding) Config.EMBEDDING_DIM
       then pad_right embedding (Config.EMBEDDING_DIM - length embedding)
       else firstn Config.EMBEDDING_DIM embedding.

(** [FaceEmbedder.generate_embedding].  The argument is [None] for a
    Python [None]; the result is [None] for a Python [None].  The final
    [astype(np.float32)] is the identity on reals. *)
Definition generate_embedding (self : FaceEmbedder)
    (face_image : option Cv.Image) : option ndarray :=
  match session self with
  | None => None
  | Some run =>
      match face_image with
      | None => None
      | Some img =>
          if Z.eqb (Cv.size img) 0 then None
          else
            match run img with
            | None => None
            | Some raw =>
                let embedding := fit_dimension raw in
                Some (_normalize_embedding embedding)
            end
      end
  end.

(** [FaceEmbedder.is_ready]. *)
Definition is_ready (self : FaceEmbedder) : bool :=
  match session self with
  | Some _ => true
  | None => false
  end.

End Embedder.

(* ================================================================== *)
(** * face_engine/detector.py *)
(* ================================================================== *)

Module Detector.

Local Open Scope Z_scope.

(** MediaPipe's [location_data.relative_bounding_box]. *)
Record RelativeBoundingBox := mkRelBox {
  xmin : Q;
  ymin : Q;
  width : Q;
  height : Q
}.

(** One entry of [results.detections]; [score] is [detection.score[0]]
    (MediaPipe stores one score per detection). *)
Record Detection := mkDetection {
  relative_bounding_box : RelativeBoundingBox;
  score : Q
}.

(** The dictionary [detection_info]. *)
Record DetectionInfo := mkDetectionInfo {
  bbox : Z * Z * Z * Z;
  confidence : Q
}.

(** [self.face_detection.process(image_rgb).detections], for the
    converted image: [None] or a list of detections. *)
Record FaceDetector := mkFaceDetector {
  face_detection : Cv.Image -> option (list Detection)
}.

(** Python's [int()] on a float: truncation toward zero. *)
Definition int_of (q : Q) : Z := Z.quot (Qnum q) (Zpos (Qden q)).

(** Python's [not x] for [x] being [None] or a list. *)
Definition falsy {A : Type} (x : option (list A)) : bool :=
  match x with
  | None => true
  | Some [] => true
  | Some (_ :: _) => false
  end.

Definition len {A : Type} (x : option (list A)) : nat :=
  match x with
  | None => 0%nat
  | Some l => length l
  end.

(** The body of [detect_single_face] once the single detection is known. *)
Definition crop_detection (image : Cv.Image) (detection : Detection)
  : Cv.Image * DetectionInfo :=
  let h := Cv.shape_h image in
  let w := Cv.shape_w image in
  let bbox := relative_bounding_box detection in
  let x := int_of (xmin bbox * inject_Z w) in
  let y := int_of (ymin bbox * inject_Z h) in
  let box_w := int_of (width bbox * inject_Z w) in
  let box_h := int_of (height bbox * inject_Z h) in
  let x := Z.max 0 (x - Config.FACE_CROP_PADDING) in
  let y := Z.max 0 (y - Config.FACE_CROP_PADDING) in
  let box_w := Z.min (w - x) (box_w + 2 * Config.FACE_CROP_PADDING) in
  let box_h := Z.min (h - y) (box_h + 2 * Config.FACE_CROP_PADDING) in
  let face_crop := Cv.crop image y (y + box_h) x (x + box_w) in
  (face_crop, {| bbox := (x, y, box_w, box_h); confidence := score detection |}).

(** [FaceDetector.detect_single_face].  The outer [option] is [None]
    when the conversion at the head of the method raises; the inner one
    is the Python [None] of the method. *)
Definition detect_single_face (self : FaceDetector) (image : Cv.Image)
  : option (option (Cv.Image * DetectionInfo)) :=
  match Cv.cvtColor image with
  | None => None
  | Some image_rgb =>
      let detections := face_detection self image_rgb in
      if falsy detections || negb (Nat.eqb (len detections) 1) then Some None
      else
        match detections with
        | Some (detection :: _) => Some (Some (crop_detection image detection))
        | _ => Some None
        end
  end.

(** [FaceDetector.detect_faces_count]; [None] when the conversion
    raises. *)
Definition detect_faces_count (self : FaceDetector) (image : Cv.Image)
  : option nat :=
  match Cv.cvtColor image with
  | None => None
  | Some image_rgb =>
      let detections := face_detection self image_rgb in
      if falsy detections then Some 0%nat else Some (len detections)
  end.

(** The box of a detection before padding, in pixels: the values of
    [x], [y], [box_w], [box_h] after the four [int(...)] lines of
    [detect_single_face]. *)
Definition raw_box (image : Cv.Image) (detection : Detection)
  : Z * Z * Z * Z :=
  let bbox := relative_bounding_box detection in
  (int_of (xmin bbox * inject_Z (Cv.shape_w image)),
   int_of (ymin bbox * inject_Z (Cv.shape_h image)),
   int_of (width bbox * inject_Z (Cv.shape_w image)),
   int_of (height bbox * inject_Z (Cv.shape_h image))).

End Detector.

(* ================================================================== *)
(** * face_engine/liveness.py *)
(* ================================================================== *)

Module Liveness.

Local Open Scope R_scope.
Local Open Scope string_scope.
Import Np.

(** One landmark [[lm.x, lm.y, lm.z]]; the array returned by
    [_extract_landmarks] is a list of them. *)
Definition Point := (R * R * R)%type.
Definition Landmarks := list Point.

(** [self.face_mesh.process(image_rgb)] for the converted image, reduced
    to the array [_extract_landmarks] builds from the first face of
    [results.multi_face_landmarks]; [None] when there is no face. *)
Record LivenessDetector := mkLivenessDetector {
  face_mesh : Cv.Image -> option Landmarks
}.

(** One call of [LivenessDetector._extract_landmarks].  The outer [option]
    is [None] when the conversion at the head of the method raises; the
    inner one is what the method returns, an array or the Python
    [None]. *)
Definition call_extract_landmarks (self : LivenessDetector)
    (image : Cv.Image) : option (option Landmarks) :=
  match Cv.cvtColor image with
  | None => None
  | Some image_rgb => Some (face_mesh self image_rgb)
  end.

(** The array a call of [_extract_landmarks] returns:
    [_extract_landmarks self image = Some l] says that the call returns
    the array [l]; there is no array when the call returns [None] and
    when it raises. *)
Definition _extract_landmarks (self : LivenessDetector) (image : Cv.Image)
  : option Landmarks :=
  match call_extract_landmarks self image with
  | Some (Some landmarks) => Some landmarks
  | _ => None
  end.

Definition LEFT_EYE_INDICES : list nat := [33; 160; 158; 133; 153; 144]%nat.
Definition RIGHT_EYE_INDICES : list nat := [362; 385; 387; 263; 373; 380]%nat.

Definition Rgtb (a b : R) : bool := if Rgt_dec a b then true else false.

Definition point_sub (p q : Point) : ndarray :=
  let '(px, py, pz) := p in
  let '(qx, qy, qz) := q in
  [px - qx; py - qy; pz - qz].

(** The rows of a landmark array laid out flat. *)
Definition flatten (l : Landmarks) : ndarray :=
  flat_map (fun p : Point => let '(x, y, z) := p in [x; y; z]) l.

(** The values found at one array position across the stacked frames;
    the frames' arrays all have the shape of the first one (the face mesh
    has a fixed number of landmarks). *)
Definition columns (rows : list ndarray) : list ndarray :=
  match rows with
  | [] => []
  | r :: _ => map (fun j => map (fun row => nth j row 0) rows)
                  (seq 0 (length r))
  end.

(** [LivenessDetector._calculate_movement_variance]: [np.var] along the
    frame axis, then [np.mean] over landmarks and coordinates. *)
Definition _calculate_movement_variance (landmarks_sequence : list Landmarks)
  : R :=
  let landmarks_array := map flatten landmarks_sequence in
  let variance := map var (columns landmarks_array) in
  mean variance.

(** [landmarks[eye_indices]]: an index past the end raises [IndexError]. *)
Fixpoint take_indices (landmarks : Landmarks) (indices : list nat)
  : option (list Point) :=
  match indices with
  | [] => Some []
  | i :: rest =>
      match nth_error landmarks i, take_indices landmarks rest with
      | Some p, Some ps => Some (p :: ps)
      | _, _ => None
      end
  end.

(** [LivenessDetector._calculate_ear].  The points [eye_points[0]] to
    [eye_points[5]] are used, further indices are looked up and ignored;
    with fewer than six, [eye_points[5]] raises [IndexError].  An eye of
    width zero gives a ratio that is not a number. *)
Definition _calculate_ear (landmarks : Landmarks) (eye_indices : list nat)
  : option (option R) :=
  match take_indices landmarks eye_indices with
  | Some (p0 :: p1 :: p2 :: p3 :: p4 :: p5 :: _) =>
      let vertical_1 := norm (point_sub p1 p5) in
      let vertical_2 := norm (point_sub p2 p4) in
      let horizontal := norm (point_sub p0 p3) in
      Some (true_divide (vertical_1 + vertical_2) (2 * horizontal))
  | _ => None
  end.

(** The loop of [_detect_blink] collecting [ear_values]. *)
Fixpoint ear_values (landmarks_sequence : list Landmarks)
  : option (list (option R)) :=
  match landmarks_sequence with
  | [] => Some []
  | landmarks :: rest =>
      match _calculate_ear landmarks LEFT_EYE_INDICES,
            _calculate_ear landmarks RIGHT_EYE_INDICES with
      | Some left_ear, Some right_ear =>
          let avg_ear := average left_ear right_ear in
          match ear_values rest with
          | Some vs => Some (avg_ear :: vs)
          | None => None
          end
      | _, _ => None
      end
  end.

(** [LivenessDetector._detect_blink]; a variance that is not a number is
    not above the threshold. *)
Definition _detect_blink (landmarks_sequence : list Landmarks) : option bool :=
  match ear_values landmarks_sequence with
  | None => None
  | Some ear_array =>
      let ear_variance := var_of ear_array in
      Some (match ear_variance with
            | Some v => Rgtb v Config.EYE_ASPECT_RATIO_THRESHOLD
            | None => false
            end)
  end.

(** The first loop of [check_liveness].  The outer [option] is [None]
    when a call of [_extract_landmarks] raises; the inner one holds the
    landmarks of every frame, or [None] as soon as one frame shows no
    face (the frames after it are not looked at). *)
Fixpoint extract_all (self : LivenessDetector) (frames : list Cv.Image)
  : option (option (list Landmarks)) :=
  match frames with
  | [] => Some (Some [])
  | frame :: rest =>
      match call_extract_landmarks self frame with
      | None => None
      | Some None => Some None
      | Some (Some landmarks) =>
          match extract_all self rest with
          | None => None
          | Some None => Some None
          | Some (Some ls) => Some (Some (landmarks :: ls))
          end
      end
  end.

(** [LivenessDetector.check_liveness], returning
    [(is_live, confidence, reason)]; the outer [option] is [None] when the
    call raises. *)
Definition check_liveness (self : LivenessDetector) (frames : list Cv.Image)
  : option (bool * R * string) :=
  if Nat.ltb (length frames) Config.LIVENESS_FRAMES_COUNT then
    Some (false, 0, "Insufficient frames")
  else
    match extract_all self frames with
    | None => None
    | Some None => Some (false, 0, "Face landmarks not detected")
    | Some (Some landmarks_sequence) =>
        let movement_score := _calculate_movement_variance landmarks_sequence in
        match _detect_blink landmarks_sequence with
        | None => None
        | Some blink_detected =>
            if Rgtb movement_score Config.LIVENESS_MOVEMENT_THRESHOLD then
              Some (true, Rmin (movement_score * 100) 1,
                    "Natural movement detected")
            else if blink_detected then
              Some (true, 0.8, "Eye blink detected")
            else
              Some (false, movement_score * 100,
                    "Static image detected (no movement)")
        end
    end.

End Liveness.

(* ================================================================== *)
(** * db/models.py, db/database.py, db/database_extensions.py *)
(* ================================================================== *)

Module Database.

Local Open Scope Z_scope.
Local Open Scope string_scope.

(** A row of [attendance_logs].  [timestamp] is the value written by
    [datetime.now()], in seconds of the wall clock; the rows are kept in
    insertion order, so the position of a row stands for its [log_id]. *)
Record LogRow := mkLogRow {
  row_student_id : option string;
  row_timestamp : Z;
  row_status : string;
  row_similarity_score : option R;
  row_processing_time_ms : R
}.

(** The two tables the core reads and writes. *)
Record Db := mkDb {
  students : list Matcher.Candidate;
  attendance_logs : list LogRow
}.

(** [CHECK(status IN ('SUCCESS', 'FAILURE'))] of
    [CREATE_ATTENDANCE_LOGS_TABLE]. *)
Definition status_check (status : string) : bool :=
  String.eqb status "SUCCESS" || String.eqb status "FAILURE".

(** [Database.log_attendance]: the [INSERT]; a row refused by the table's
    [CHECK] raises inside the [try], the table is left as it was and the
    method returns [False]. *)
Definition log_attendance (self : Db) (student_id : option string)
    (status : string) (similarity_score : option R)
    (processing_time_ms : R) (now : Z) : Db * bool :=
  if status_check status then
    ({| students := students self;
        attendance_logs :=
          attendance_logs self ++
          [ {| row_student_id := student_id;
               row_timestamp := now;
               row_status := status;
               row_similarity_score := similarity_score;
               row_processing_time_ms := processing_time_ms |} ] |},
     true)
  else (self, false).

(** [Database.get_all_embeddings]. *)
Definition get_all_embeddings (self : Db) : list Matcher.Candidate :=
  students self.

(** SQLite's [DATE(t)]: the calendar day of an instant given in seconds. *)
Definition sql_date (t : Z) : Z := t / 86400.

(** The two clocks of the database layer at one instant, [utc] seconds
    after the epoch.  [datetime.now()], whose reading [log_attendance]
    stores, is the local wall clock of the host, [utc_offset] seconds ahead
    of UTC; SQLite's ['now'] is UTC, whatever the host. *)
Definition datetime_now (utc_offset utc : Z) : Z := utc + utc_offset.

Definition sqlite_now (utc : Z) : Z := utc.

Definition same_student (row : LogRow) (student_id : string) : bool :=
  match row_student_id row with
  | Some s => String.eqb s student_id
  | None => false
  end.

(** The [WHERE] clause of [check_attendance_today]; [now] is the instant
    SQLite reads for ['now'].  SQLite reads it in UTC, whereas the stored
    timestamps come from the local clock of [datetime.now()]: the two are
    separate inputs here, and no relation between them is assumed. *)
Definition marked_today (student_id : string) (now : Z) (row : LogRow) : bool :=
  same_student row student_id
  && Z.eqb (sql_date (row_timestamp row)) (sql_date now)
  && String.eqb (row_status row) "SUCCESS".

(** [check_attendance_today]: [SELECT COUNT( * ) ... > 0]. *)
Definition check_attendance_today (self : Db) (student_id : string) (now : Z)
  : bool :=
  Nat.ltb 0 (length (filter (marked_today student_id now) (attendance_logs self))).

(** The arguments of one [log_attendance] call, with the wall-clock
    reading at the [INSERT]. *)
Record LogCall := mkLogCall {
  call_student_id : option string;
  call_status : string;
  call_similarity_score : option R;
  call_processing_time_ms : R;
  call_now : Z
}.

(** Any number of further [log_attendance] calls, one after the other. *)
Definition log_all (self : Db) (calls : list LogCall) : Db :=
  fold_left
    (fun db c =>
       fst (log_attendance db (call_student_id c) (call_status c)
              (call_similarity_score c) (call_processing_time_ms c)
              (call_now c)))
    calls self.

(** [Database.insert_student]: [INSERT OR REPLACE] on the primary key
    [student_id].  A row with the same key is deleted and the new row is
    stored with a fresh rowid, hence at the end of a full scan.  The
    pickled embedding is the embedding itself. *)
Definition insert_student (self : Db) (student_id student_name : string)
    (embedding : Np.ndarray) : Db * bool :=
  ({| students :=
        filter (fun c => negb (String.eqb (Matcher.cand_id c) student_id))
               (students self)
        ++ [(student_id, student_name, embedding)];
      attendance_logs := attendance_logs self |},
   true).

(** [Database.get_student_count]. *)
Definition get_student_count (self : Db) : nat := length (students self).

(** The dictionary returned by [Database.get_log_statistics]. *)
Record LogStatistics := mkLogStatistics {
  total_attempts : Z;
  successful_attempts : Z;
  failed_attempts : Z;
  success_rate : R;
  avg_processing_time_ms : R
}.

Definition is_success (row : LogRow) : bool :=
  String.eqb (row_status row) "SUCCESS".

(** [Database.get_log_statistics].  [AVG] over no row is [NULL], which
    [or 0] turns into 0. *)
Definition get_log_statistics (self : Db) : LogStatistics :=
  let total := Z.of_nat (length (attendance_logs self)) in
  let success := Z.of_nat (length (filter is_success (attendance_logs self))) in
  let avg_time :=
    match attendance_logs self with
    | [] => 0%R
    | _ => Np.mean (map row_processing_time_ms (attendance_logs self))
    end in
  let success_rate :=
    if Z.ltb 0 total then (IZR success / IZR total * 100)%R else 0%R in
  {| total_attempts := total;
     successful_attempts := success;
     failed_attempts := total - success;
     success_rate := success_rate;
     avg_processing_time_ms := avg_time |}.

(** The [student_id] a row contributes to
    [COUNT(DISTINCT student_id) ... WHERE DATE(timestamp) = DATE('now')
    AND status = 'SUCCESS']; a [NULL] is not counted. *)
Definition counted_today (now : Z) (row : LogRow) : list string :=
  if Z.eqb (sql_date (row_timestamp row)) (sql_date now)
     && String.eqb (row_status row) "SUCCESS"
  then match row_student_id row with
       | Some s => [s]
       | None => []
       end
  else [].

(** [get_today_attendance_count]. *)
Definition get_today_attendance_count (self : Db) (now : Z) : nat :=
  length (nodup string_dec (flat_map (counted_today now) (attendance_logs self))).












End Database.

(* ================================================================== *)
(** * The users table (db/database.py, db/database_extensions.py) and
      the login of auth/login.py *)
(* ================================================================== *)

Module Users.

Local Open Scope Z_scope.
Local Open Scope string_scope.

(** A row of [users]. *)
Record User := mkUser {
  user_id : Z;
  user_student_id : string;
  user_name : string;
  user_username : string;
  user_password : string;
  user_role : string;
  user_is_active : bool;
  user_created_at : Z
}.

(** The table with the counter that [AUTOINCREMENT] keeps: the largest
    [id] handed out so far. *)
Record UserTable := mkUserTable {
  user_rows : list User;
  user_seq : Z
}.

(** [CHECK(role IN ('admin', 'student'))]. *)
Definition role_check (role : string) : bool :=
  String.eqb role "admin" || String.eqb role "student".

(** [create_user]: the [INSERT]; [cursor.lastrowid] on success, [None]
    when a [UNIQUE] or [CHECK] constraint refuses the row.  [now] is
    [CURRENT_TIMESTAMP]. *)
Definition create_user (self : UserTable)
    (student_id name username password_hash role : string) (now : Z)
  : UserTable * option Z :=
  if role_check role
     && negb (existsb (fun u => String.eqb (user_student_id u) student_id)
                      (user_rows self))
     && negb (existsb (fun u => String.eqb (user_username u) username)
                      (user_rows self))
  then
    let id := user_seq self + 1 in
    ({| user_rows :=
          user_rows self ++
          [ {| user_id := id;
               user_student_id := student_id;
               user_name := name;
               user_username := username;
               user_password := password_hash;
               user_role := role;
               user_is_active := true;
               user_created_at := now |} ];
        user_seq := id |},
     Some id)
  else (self, None).

(** [get_user_by_username]: [fetchone()] of the rows with that name. *)
Definition get_user_by_username (self : UserTable) (username : string)
  : option User :=
  find (fun u => String.eqb (user_username u) username) (user_rows self).

(** [toggle_user_status]: the [UPDATE ... WHERE id = ?]. *)
Definition set_active (user_id' : Z) (is_active : bool) (u : User) : User :=
  if Z.eqb (user_id u) user_id'
  then {| user_id := user_id u;
          user_student_id := user_student_id u;
          user_name := user_name u;
          user_username := user_username u;
          user_password := user_password u;
          user_role := user_role u;
          user_is_active := is_active;
          user_created_at := user_created_at u |}
  else u.

Definition toggle_user_status (self : UserTable) (user_id' : Z)
    (is_active : bool) : UserTable * bool :=
  ({| user_rows := map (set_active user_id' is_active) (user_rows self);
      user_seq := user_seq self |},
   true).

(** What pressing the login button leads to. *)
Inductive LoginOutcome :=
| LoggedIn (user : User) (session_id : string)
| AccountDisabled
| InvalidCredentials
| MissingInput.

(** The handler of the login button in [auth/login.py].
    [verify_password] is bcrypt's check of a password against a stored
    hash, [session_id] the token that [generate_session_id] would draw. *)
Definition login (verify_password : string -> string -> bool)
    (session_id : string) (self : UserTable) (username password : string)
  : LoginOutcome :=
  if String.eqb username "" || String.eqb password "" then MissingInput
  else
    match get_user_by_username self username with
    | Some user =>
        if verify_password password (user_password user) then
          if user_is_active user then LoggedIn user session_id
          else AccountDisabled
        else InvalidCredentials
    | None => InvalidCredentials
    end.

(** [st.session_state['authenticated']] after the handler. *)
Definition authenticated (outcome : LoginOutcome) : bool :=
  match outcome with
  | LoggedIn _ _ => true
  | _ => false
  end.

(** The constraints of the table: [username], [student_id] and [id] are
    unique, and no [id] exceeds the counter. *)
Definition well_formed (self : UserTable) : Prop :=
  NoDup (map user_username (user_rows self))
  /\ NoDup (map user_student_id (user_rows self))
  /\ NoDup (map user_id (user_rows self))
  /\ Forall (fun u => user_id u <= user_seq self) (user_rows self).

End Users.

(* ================================================================== *)
(** * pages/attendance.py *)
(* ================================================================== *)

Module Attendance.

Local Open Scope R_scope.
Local Open Scope string_scope.

(** The dictionary [result_data]. *)
Record ResultData := mkResultData {
  student_id : option string;
  student_name : option string;
  similarity_score : R;
  processing_time : R;
  liveness : string;
  is_live : bool
}.

(** What the clocks show during one call of [process_attendance]:
    [time.time()] at the start, around the search inside the matcher and
    when the processing time is taken, and [datetime.now()] at the
    [INSERT]. *)
Record Clock := mkClock {
  t_start : R;
  t_search_start : R;
  t_search_end : R;
  t_end : R;
  now : Z
}.

(** [process_attendance]: the pair [(result_data, error)] together with
    the database after the call; [None] when an exception escapes.  The
    matcher is given by its threshold.  The liveness detector is passed
    and, as in the source, not consulted: the check is commented out and
    [is_live] is set to [True]. *)
Definition process_attendance (frame : Cv.Image)
    (detector : Detector.FaceDetector) (embedder : Embedder.FaceEmbedder)
    (liveness_detector : Liveness.LivenessDetector)
    (threshold : R) (db : Database.Db) (clock : Clock)
  : option ((option ResultData * option string) * Database.Db) :=
  let start_time := t_start clock in
  match Detector.detect_single_face detector frame with
  | None => None
  | Some None =>
      let processing_time := (t_end clock - start_time) * 1000 in
      let db' := fst (Database.log_attendance db None "FAILURE" (Some 0)
                        processing_time (now clock)) in
      Some ((None, Some "No face detected"), db')
  | Some (Some (face_crop, detection_info)) =>
      let is_live := true in
      let liveness_reason := "Skipped for speed" in
      match Embedder.generate_embedding embedder (Some face_crop) with
      | None =>
          let processing_time := (t_end clock - start_time) * 1000 in
          let db' := fst (Database.log_attendance db None "FAILURE" (Some 0)
                            processing_time (now clock)) in
          Some ((None, Some "Embedding generation failed"), db')
      | Some embedding =>
          let all_embeddings := Database.get_all_embeddings db in
          match Matcher.match_1_to_n threshold embedding all_embeddings
                  (t_search_start clock) (t_search_end clock) with
          | None => None
          | Some (student_id, student_name, similarity_score, search_time) =>
              let processing_time := (t_end clock - start_time) * 1000 in
              let db' :=
                match student_id with
                | Some _ =>
                    fst (Database.log_attendance db student_id "SUCCESS"
                           (Some similarity_score) processing_time (now clock))
                | None =>
                    fst (Database.log_attendance db None "FAILURE"
                           (Some similarity_score) processing_time (now clock))
                end in
              Some ((Some {| student_id := student_id;
                             student_name := student_name;
                             similarity_score := similarity_score;
                             processing_time := processing_time;
                             liveness := liveness_reason;
                             is_live := is_live |}, None), db')
          end
      end
  end.

(** One orchestrator cycle after another on the same database: the frames
    captured with the clock readings of their cycles.  [None] as soon as a
    cycle does not complete. *)
Fixpoint run_cycles (detector : Detector.FaceDetector)
    (embedder : Embedder.FaceEmbedder)
    (liveness_detector : Liveness.LivenessDetector) (threshold : R)
    (cycles : list (Cv.Image * Clock)) (db : Database.Db)
  : option Database.Db :=
  match cycles with
  | [] => Some db
  | (frame, clock) :: rest =>
      match process_attendance frame detector embedder liveness_detector
              threshold db clock with
      | None => None
      | Some (_, db') =>
          run_cycles detector embedder liveness_detector threshold rest db'
      end
  end.

(** [calculate_ear] of pages/attendance.py: the eye aspect ratio from the
    [x] and [y] coordinates of the landmarks only.  An index past the end
    of the landmarks, or a sixth eye point that does not exist, raises
    [IndexError]; an eye of width zero gives a ratio that is not a
    number. *)
Definition point_sub_xy (p q : Liveness.Point) : Np.ndarray :=
  let '(px, py, _) := p in
  let '(qx, qy, _) := q in
  [px - qx; py - qy].

Definition calculate_ear (landmarks : Liveness.Landmarks)
    (eye_indices : list nat) : option (option R) :=
  match Liveness.take_indices landmarks eye_indices with
  | Some (p0 :: p1 :: p2 :: p3 :: p4 :: p5 :: _) =>
      let vertical_1 := Np.norm (point_sub_xy p1 p5) in
      let vertical_2 := Np.norm (point_sub_xy p2 p4) in
      let horizontal := Np.norm (point_sub_xy p0 p3) in
      Some (Np.true_divide (vertical_1 + vertical_2) (2 * horizontal))
  | _ => None
  end.

Definition LEFT_EYE : list nat := [33; 160; 158; 133; 153; 144]%nat.
Definition RIGHT_EYE : list nat := [362; 385; 387; 263; 373; 380]%nat.
Definition BLINK_THRESHOLD : R := 0.20.

Definition Rltb (a b : R) : bool := if Rlt_dec a b then true else false.

(** [detect_blink]: [(is_closed, avg_ear)].  [face_mesh] gives the
    landmarks of the first face of [results.multi_face_landmarks] for the
    converted image, or [None] when there is none.  An average that is
    not a number is not below the threshold. *)
Definition detect_blink (image_bgr : Cv.Image)
    (face_mesh : Cv.Image -> option Liveness.Landmarks)
  : option (bool * option R) :=
  match Cv.cvtColor image_bgr with
  | None => None
  | Some image_rgb =>
      match face_mesh image_rgb with
      | None => Some (false, Some 0)
      | Some landmarks =>
          match calculate_ear landmarks LEFT_EYE,
                calculate_ear landmarks RIGHT_EYE with
          | Some left_ear, Some right_ear =>
              let avg_ear := Np.average left_ear right_ear in
              let is_closed :=
                match avg_ear with
                | Some v => Rltb v BLINK_THRESHOLD
                | None => false
                end in
              Some (is_closed, avg_ear)
          | _, _ => None
          end
      end
  end.

(** The entries of [st.session_state] that [show] keeps. *)
Record SessionState := mkSessionState {
  processing : bool;
  last_result_time : R;
  result_data : option ResultData;
  blink_detected : bool;
  last_blink_time : R
}.

(** How one pass through the body of the monitoring loop of [show] ends:
    with the next pass (after the short sleep), with the [break] after a
    failed read, or with [st.rerun()]. *)
Inductive LoopExit := NextFrame | ReadFailed | Rerun.

(** Python's truth value of an optional string. *)
Definition truthy (s : option string) : bool :=
  match s with
  | Some text => negb (String.eqb text "")
  | None => false
  end.

(** One pass through the body of [while not st.session_state.blink_detected]
    in [show].  [frame] is what [cap.read()] delivers, [None] when [ret]
    is false; [current_time] is the reading of [time.time()] at the blink
    check, [clock] holds the readings inside [process_attendance],
    [result_time] the reading stored as [last_result_time].  The drawing
    on the frame and its display are left out. *)
Definition scan_iteration (frame : option Cv.Image)
    (face_mesh : Cv.Image -> option Liveness.Landmarks)
    (detector : Detector.FaceDetector) (embedder : Embedder.FaceEmbedder)
    (liveness_detector : Liveness.LivenessDetector) (threshold : R)
    (state : SessionState) (db : Database.Db)
    (current_time : R) (clock : Clock) (result_time : R)
  : option (SessionState * Database.Db * LoopExit) :=
  match frame with
  | None => Some (state, db, ReadFailed)
  | Some frame =>
      match detect_blink frame face_mesh with
      | None => None
      | Some (is_blinking, ear_value) =>
          if is_blinking
             && Liveness.Rgtb (current_time - last_blink_time state) 2
          then
            match process_attendance frame detector embedder
                    liveness_detector threshold db clock with
            | None => None
            | Some ((result, error), db') =>
                if truthy error then
                  Some ({| processing := false;
                           last_result_time := last_result_time state;
                           result_data := result_data state;
                           blink_detected := false;
                           last_blink_time := current_time |}, db', Rerun)
                else
                  Some ({| processing := true;
                           last_result_time := result_time;
                           result_data := result;
                           blink_detected := true;
                           last_blink_time := current_time |}, db', Rerun)
            end
          else Some (state, db, NextFrame)
      end
  end.

End Attendance.

(* ================================================================== *)
(** * Concrete inputs used in the runs below *)
(* ================================================================== *)

Module Samples.

Local Open Scope R_scope.
Local Open Scope string_scope.
Import Np.

(** Two orthogonal unit signatures and the zero signature, in two
    dimensions. *)
Definition e1 : ndarray := [1; 0].
Definition e2 : ndarray := [0; 1].
Definition zero2 : ndarray := [0; 0].

(** A store in which two students carry the same signature. *)
Definition twins : list Matcher.Candidate :=
  [("S001", "Asha", e1); ("S002", "Bela", e1); ("S003", "Chen", e2)].

(** A store of three students none of whom is close to [e1]: the
    similarities to [e1] are 0, 3/5 and -1. *)
Definition mixed : list Matcher.Candidate :=
  [("S001", "Asha", e2); ("S002", "Bela", [3; 4]); ("S003", "Chen", [-1; 0])].

(** A store whose only signature is the zero vector. *)
Definition blank : list Matcher.Candidate := [("S009", "Zero", zero2)].

(** A one-pixel frame. *)
Definition pixel_frame : Cv.Image :=
  {| Cv.shape_h := 1; Cv.shape_w := 1; Cv.at_ := fun _ _ => (0, 0, 0)%Z |}.

(** A model whose output is the zero vector of the canonical dimension,
    and one whose output has two components only. *)
Definition zeros : ndarray := repeat 0 Config.EMBEDDING_DIM.

Definition dead_embedder : Embedder.FaceEmbedder :=
  {| Embedder.session := Some (fun _ => Some zeros) |}.

Definition short_embedder : Embedder.FaceEmbedder :=
  {| Embedder.session := Some (fun _ => Some [3; 4]) |}.

(** A detector that reports one face covering the frame on frames of at
    most three rows, and nothing on taller frames. *)
Definition whole_frame : Detector.Detection :=
  {| Detector.relative_bounding_box :=
       {| Detector.xmin := 0; Detector.ymin := 0;
          Detector.width := 1; Detector.height := 1 |};
     Detector.score := 9 # 10 |}.

Definition row_detector : Detector.FaceDetector :=
  {| Detector.face_detection :=
       fun img => if Z.leb (Cv.shape_h img) 3 then Some [whole_frame]
                  else None |}.

(** A face mesh that sees the same landmarks in every frame. *)
Definition still_landmarks : Liveness.Landmarks := repeat (0, 0, 0) 478.

Definition still_mesh : Liveness.LivenessDetector :=
  {| Liveness.face_mesh := fun _ => Some still_landmarks |}.

(** A log in which S001 was matched at second 1000 of day 0, and two
    later attempts. *)
Definition morning_log : Database.Db :=
  {| Database.students := [];
     Database.attendance_logs :=
       [ {| Database.row_student_id := Some "S001";
            Database.row_timestamp := 1000;
            Database.row_status := "SUCCESS";
            Database.row_similarity_score := Some 1;
            Database.row_processing_time_ms := 40 |} ] |}.

Definition later_calls : list Database.LogCall :=
  [ {| Database.call_student_id := None;
       Database.call_status := "FAILURE";
       Database.call_similarity_score := Some 0;
       Database.call_processing_time_ms := 35;
       Database.call_now := 2000 |};
    {| Database.call_student_id := Some "S002";
       Database.call_status := "SUCCESS";
       Database.call_similarity_score := Some 1;
       Database.call_processing_time_ms := 38;
       Database.call_now := 3000 |} ].

(** A host five and a half hours ahead of UTC, and the log after S001
    was matched there at 20:30 UTC of day 0, which the host reads as
    02:00 of day 1. *)
Definition ist : Z := 19800.

Definition half_past_eight_utc : Z := 73800.

Definition night_log : Database.Db :=
  fst (Database.log_attendance
         {| Database.students := []; Database.attendance_logs := [] |}
         (Some "S001") "SUCCESS" (Some 1) 40
         (Database.datetime_now ist half_past_eight_utc)).

(** The clock of an uneventful cycle. *)
Definition tick : Attendance.Clock :=
  {| Attendance.t_start := 0; Attendance.t_search_start := 0;
     Attendance.t_search_end := 0; Attendance.t_end := 0;
     Attendance.now := 1000 |}.

(** Frames of one column and [n] rows. *)
Definition frame_rows (n : Z) : Cv.Image :=
  {| Cv.shape_h := n; Cv.shape_w := 1; Cv.at_ := fun _ _ => (0, 0, 0)%Z |}.

(** A unit signature of the canonical dimension, and a second one
    orthogonal to it. *)
Definition unit512 : ndarray := 1 :: repeat 0 511.
Definition other512 : ndarray := 0 :: 1 :: repeat 0 510.

(** A model that answers by the height of the crop: the first unit
    direction for one row, the second for two rows, and a failure of the
    runtime for anything else. *)
Definition sized_embedder : Embedder.FaceEmbedder :=
  {| Embedder.session :=
       Some (fun img =>
               if Z.eqb (Cv.shape_h img) 1 then Some [1]
               else if Z.eqb (Cv.shape_h img) 2 then Some [0; 1]
               else None) |}.

(** A database with one enrolled student and an empty log. *)
Definition enrolled : list Matcher.Candidate := [("S001", "Asha", unit512)].

Definition with_log (rows : list Database.LogRow) : Database.Db :=
  {| Database.students := enrolled; Database.attendance_logs := rows |}.

Definition enrolled_db : Database.Db := with_log [].

(** Four cycles, one per outcome: no face, embedding failure, no match,
    match. *)
Definition four_cycles : list (Cv.Image * Attendance.Clock) :=
  [(frame_rows 4, tick); (frame_rows 3, tick);
   (frame_rows 2, tick); (frame_rows 1, tick)].

Definition failure_row : Database.LogRow :=
  {| Database.row_student_id := None;
     Database.row_timestamp := 1000;
     Database.row_status := "FAILURE";
     Database.row_similarity_score := Some 0;
     Database.row_processing_time_ms := (0 - 0) * 1000 |}.

Definition success_row : Database.LogRow :=
  {| Database.row_student_id := Some "S001";
     Database.row_timestamp := 1000;
     Database.row_status := "SUCCESS";
     Database.row_similarity_score := Some 1;
     Database.row_processing_time_ms := (0 - 0) * 1000 |}.

Definition four_rows : Database.Db :=
  {| Database.students := enrolled;
     Database.attendance_logs :=
       [failure_row; failure_row; failure_row; success_row] |}.

(** A frame of 100 by 100 pixels with a face well inside it. *)
Definition wide_frame : Cv.Image :=
  {| Cv.shape_h := 100; Cv.shape_w := 100; Cv.at_ := fun r c => (r, c, 0)%Z |}.

Definition inner_face : Detector.Detection :=
  {| Detector.relative_bounding_box :=
       {| Detector.xmin := 3 # 10; Detector.ymin := 4 # 10;
          Detector.width := 2 # 10; Detector.height := 1 # 10 |};
     Detector.score := 95 # 100 |}.

(** A detector that finds this one face in every frame. *)
Definition inner_detector : Detector.FaceDetector :=
  {| Detector.face_detection := fun _ => Some [inner_face] |}.


(** A face mesh that loses the face in frames of more than three rows. *)
Definition row_mesh : Liveness.LivenessDetector :=
  {| Liveness.face_mesh :=
       fun img => if Z.leb (Cv.shape_h img) 3 then Some still_landmarks
                  else None |}.

(** The session state before the first blink. *)
Definition fresh_state : Attendance.SessionState :=
  {| Attendance.processing := false;
     Attendance.last_result_time := 0;
     Attendance.result_data := None;
     Attendance.blink_detected := false;
     Attendance.last_blink_time := 0 |}.

(** A users table with the administrator and one student. *)
Definition asha : Users.User :=
  {| Users.user_id := 2;
     Users.user_student_id := "S001";
     Users.user_name := "Asha";
     Users.user_username := "asha";
     Users.user_password := "hash-of-asha";
     Users.user_role := "student";
     Users.user_is_active := true;
     Users.user_created_at := 1000 |}.

Definition two_users : Users.UserTable :=
  {| Users.user_rows :=
       [ {| Users.user_id := 1;
            Users.user_student_id := "ADMIN001";
            Users.user_name := "Administrator";
            Users.user_username := "admin";
            Users.user_password := "hash-of-admin";
            Users.user_role := "admin";
            Users.user_is_active := true;
            Users.user_created_at := 500 |};
         asha ];
     Users.user_seq := 2 |}.

(** A password check that accepts everything. *)
Definition accept_all (password hashed : string) : bool := true.

(** Landmarks spread along the x axis, landmark [i] at [x = i]: the
    eyelids are close together compared with the width of the eyes. *)
Definition narrow_eye_landmarks : Liveness.Landmarks :=
  map (fun i => (IZR (Z.of_nat i), 0, 0)) (seq 0 478).

Definition narrow_eye_mesh (image : Cv.Image) : option Liveness.Landmarks :=
  Some narrow_eye_landmarks.

(** The same face seen [a] to the right, and a face mesh that sees it as
    far to the right as the frame has rows: between frames of different
    heights the face moves. *)
Definition sliding_landmarks (a : R) : Liveness.Landmarks :=
  map (fun i => (IZR (Z.of_nat i) + a, 0, 0)) (seq 0 478).

Definition sliding_mesh : Liveness.LivenessDetector :=
  {| Liveness.face_mesh :=
       fun img => Some (sliding_landmarks (IZR (Cv.shape_h img))) |}.

(** A face whose eye corners coincide: every landmark at the origin. *)
Definition collapsed_mesh (image : Cv.Image) : option Liveness.Landmarks :=
  Some still_landmarks.

(** The session state while scanning, with the last trigger at second 5. *)
Definition cooling_state : Attendance.SessionState :=
  {| Attendance.processing := false;
     Attendance.last_result_time := 0;
     Attendance.result_data := None;
     Attendance.blink_detected := false;
     Attendance.last_blink_time := 5 |}.

(** The session state after a trigger at second 5 that produced the
    result of the matched cycle, displayed from second 6 on. *)
Definition matched_result : Attendance.ResultData :=
  {| Attendance.student_id := Some "S001";
     Attendance.student_name := Some "Asha";
     Attendance.similarity_score := 1;
     Attendance.processing_time := (0 - 0) * 1000;
     Attendance.liveness := "Skipped for speed";
     Attendance.is_live := true |}.

Definition triggered_state : Attendance.SessionState :=
  {| Attendance.processing := true;
     Attendance.last_result_time := 6;
     Attendance.result_data := Some matched_result;
     Attendance.blink_detected := true;
     Attendance.last_blink_time := 5 |}.

End Samples.

(* ================================================================== *)
(** * Facts about the NumPy primitives *)
(* ================================================================== *)

Module NpFacts.

Local Open Scope R_scope.
Import Np.

(** ** argmax *)

Lemma argmax_from_spec :
  forall l best_i best i,
    let r := argmax_from best_i best i l in
    (r = best_i /\ (forall k, (k < length l)%nat -> nth k l 0 <= best))
    \/ (exists k, (k < length l)%nat /\ r = (i + k)%nat
                  /\ best < nth k l 0
                  /\ (forall j, (j < length l)%nat -> nth j l 0 <= nth k l 0)
                  /\ (forall j, (j < k)%nat -> nth j l 0 < nth k l 0)).
Proof.
  induction l as [|x t IH]; intros best_i best i; cbn zeta.
  - left. split; [reflexivity|]. cbn. intros k Hk. lia.
  - cbn [argmax_from]. destruct (Rlt_dec best x) as [Hlt|Hge].
    + right. destruct (IH i x (S i)) as [[Hr Hall]|(k & Hk & Hr & Hb & Hmax & Hfirst)].
      * exists 0%nat. cbn [length nth]. repeat split.
        -- lia.
        -- rewrite Hr. lia.
        -- exact Hlt.
        -- intros [|j] Hj; [lra|]. apply Hall. lia.
        -- intros j Hj. lia.
      * exists (S k). cbn [length nth]. repeat split.
        -- lia.
        -- rewrite Hr. lia.
        -- lra.
        -- intros [|j] Hj; [lra|]. apply Hmax. lia.
        -- intros [|j] Hj; [lra|]. apply Hfirst. lia.
    + destruct (IH best_i best (S i)) as [[Hr Hall]|(k & Hk & Hr & Hb & Hmax & Hfirst)].
      * left. split; [exact Hr|]. cbn [length nth].
        intros [|j] Hj; [lra|]. apply Hall. lia.
      * right. exists (S k). cbn [length nth]. repeat split.
        -- lia.
        -- rewrite Hr. lia.
        -- exact Hb.
        -- intros [|j] Hj; [lra|]. apply Hmax. lia.
        -- intros [|j] Hj; [lra|]. apply Hfirst. lia.
Qed.

Lemma argmax_is_first_max :
  forall l i, argmax l = Some i -> is_first_max l i.
Proof.
  intros [|x t] i H; [discriminate|]. cbn in H. injection H as <-.
  destruct (argmax_from_spec t 0%nat x 1%nat)
    as [[Hr Hall]|(k & Hk & Hr & Hb & Hmax & Hfirst)]; cbn zeta in *.
  - rewrite Hr. repeat split; cbn [length nth].
    + lia.
    + intros [|j] Hj; [lra|]. apply Hall. lia.
    + intros j Hj. lia.
  - rewrite Hr. change (1 + k)%nat with (S k). repeat split; cbn [length nth].
    + lia.
    + intros [|j] Hj; [lra|]. apply Hmax. lia.
    + intros [|j] Hj; [lra|]. apply Hfirst. lia.
Qed.

Lemma is_first_max_unique :
  forall l i j, is_first_max l i -> is_first_max l j -> i = j.
Proof.
  intros l i j (Hi & Hmi & Hfi) (Hj & Hmj & Hfj).
  destruct (Nat.lt_trichotomy i j) as [Hlt|[Heq|Hgt]]; [|exact Heq|].
  - specialize (Hfj i Hlt). specialize (Hmi j Hj). lra.
  - specialize (Hfi j Hgt). specialize (Hmj i Hi). lra.
Qed.

Lemma argmax_nonempty :
  forall l, l <> [] -> exists i, argmax l = Some i.
Proof.
  intros [|x t] H; [congruence|]. eexists. reflexivity.
Qed.

Lemma first_max_is_argmax :
  forall l i, is_first_max l i -> argmax l = Some i.
Proof.
  intros l i H.
  assert (Hne : l <> []).
  { destruct H as (Hi & _). destruct l; cbn in Hi; [lia|discriminate]. }
  destruct (argmax_nonempty l Hne) as [k Hk].
  rewrite Hk. f_equal.
  apply is_first_max_unique with l; [apply argmax_is_first_max|]; assumption.
Qed.

(** ** The true maximum *)

Lemma fold_Rmax_ge_init :
  forall t x, x <= fold_left Rmax t x.
Proof.
  induction t as [|y t IH]; intro x; cbn.
  - lra.
  - eapply Rle_trans; [apply (Rmax_l x y)|apply IH].
Qed.

Lemma fold_Rmax_upper :
  forall t x y, In y t -> y <= fold_left Rmax t x.
Proof.
  induction t as [|z t IH]; intros x y Hin; cbn in *.
  - contradiction.
  - destruct Hin as [->|Hin].
    + eapply Rle_trans; [apply (Rmax_r x y)|apply fold_Rmax_ge_init].
    + apply IH. exact Hin.
Qed.

Lemma fold_Rmax_in :
  forall t x, fold_left Rmax t x = x \/ In (fold_left Rmax t x) t.
Proof.
  induction t as [|z t IH]; intro x; cbn.
  - left. reflexivity.
  - destruct (IH (Rmax x z)) as [H|H].
    + rewrite H. unfold Rmax. destruct (Rle_dec x z); auto.
    + right. right. exact H.
Qed.

Lemma max_of_upper :
  forall l y, In y l -> y <= max_of l.
Proof.
  intros [|x t] y Hin; [contradiction|]. cbn.
  destruct Hin as [->|Hin].
  - apply fold_Rmax_ge_init.
  - apply fold_Rmax_upper. exact Hin.
Qed.

Lemma max_of_in :
  forall l, l <> [] -> In (max_of l) l.
Proof.
  intros [|x t] H; [congruence|]. cbn.
  destruct (fold_Rmax_in t x) as [E|E]; [left; symmetry; exact E|right; exact E].
Qed.

Lemma first_max_value :
  forall l i, is_first_max l i -> nth i l 0 = max_of l.
Proof.
  intros l i (Hi & Hmax & _).
  assert (Hne : l <> []) by (destruct l; cbn in Hi; [lia|discriminate]).
  apply Rle_antisym.
  - apply max_of_upper. apply nth_In. exact Hi.
  - destruct (In_nth l (max_of l) 0 (max_of_in l Hne)) as (j & Hj & <-).
    apply Hmax. exact Hj.
Qed.

(** ** Inner products, norms and normalised rows *)

Lemma dot_self_nonneg : forall v, 0 <= dot v v.
Proof.
  induction v as [|x v IH]; cbn; [lra|]. nra.
Qed.

Lemma norm_sqr : forall v, norm v * norm v = dot v v.
Proof. intro v. apply sqrt_sqrt, dot_self_nonneg. Qed.

Lemma norm_zero_dot : forall v, norm v = 0 -> dot v v = 0.
Proof. intros v H. rewrite <- norm_sqr, H. ring. Qed.

Lemma dot_self_zero : forall v, dot v v = 0 -> v = repeat 0 (length v).
Proof.
  induction v as [|x v IH]; cbn; intro H; [reflexivity|].
  pose proof (dot_self_nonneg v) as Hv.
  assert (Hx : x = 0) by nra.
  assert (Hd : dot v v = 0) by nra.
  rewrite Hx at 1. f_equal. apply IH. exact Hd.
Qed.

Lemma norm_zero_all_zero : forall v, norm v = 0 -> v = repeat 0 (length v).
Proof. intros v H. apply dot_self_zero, norm_zero_dot, H. Qed.

Lemma dot_repeat_zero_l : forall n b, dot (repeat 0 n) b = 0.
Proof.
  induction n as [|n IH]; intros [|y b]; cbn; try reflexivity.
  rewrite IH. ring.
Qed.


Lemma norm_repeat_zero : forall n, norm (repeat 0 n) = 0.
Proof. intro n. unfold norm. rewrite dot_repeat_zero_l. apply sqrt_0. Qed.

Lemma dot_scale :
  forall a b c d,
    dot (map (fun x => x / c) a) (map (fun y => y / d) b) = dot a b / c / d.
Proof.
  induction a as [|x a IH]; intros [|y b] c d; cbn;
    try (unfold Rdiv; ring).
  rewrite IH. unfold Rdiv. ring.
Qed.

Lemma map_div_one : forall v : ndarray, map (fun x => x / 1) v = v.
Proof.
  induction v as [|x v IH]; cbn; [reflexivity|].
  rewrite IH. f_equal. field.
Qed.


Lemma normalize_zero_norm : forall v, norm v = 0 -> normalize v = v.
Proof.
  intros v H. unfold normalize, handle_zeros_in_scale. rewrite H.
  destruct (Req_dec_T 0 0) as [_|N]; [apply map_div_one|congruence].
Qed.

Lemma handle_zeros_nonzero : forall n, n <> 0 -> handle_zeros_in_scale n = n.
Proof.
  intros n H. unfold handle_zeros_in_scale.
  destruct (Req_dec_T n 0); [contradiction|reflexivity].
Qed.

(** A row of non-zero norm is normalised to a unit row. *)
Lemma dot_normalize_self :
  forall v, norm v <> 0 -> dot (normalize v) (normalize v) = 1.
Proof.
  intros v H. unfold normalize. rewrite handle_zeros_nonzero by exact H.
  rewrite dot_scale, <- norm_sqr. field. exact H.
Qed.



(** ** Cosine similarity *)


Lemma cosine_self :
  forall x, norm x <> 0 -> cosine x x = 1.
Proof. intros x H. apply dot_normalize_self, H. Qed.


End NpFacts.

(* ================================================================== *)
(** * Facts about the matcher *)
(* ================================================================== *)

Module MatcherFacts.

Local Open Scope R_scope.
Local Open Scope string_scope.
Import Np NpFacts Matcher Samples.

Lemma cosine_alt :
  forall x y,
    cosine x y
    = dot x y / handle_zeros_in_scale (norm x) / handle_zeros_in_scale (norm y).
Proof. intros x y. unfold cosine, normalize. apply dot_scale. Qed.

Lemma cosine_similarity_some :
  forall q ys sims,
    cosine_similarity q ys = Some sims ->
    sims = map (cosine q) ys /\ same_dim q ys = true /\ length q <> 0%nat.
Proof.
  intros q ys sims H. unfold cosine_similarity in H.
  destruct (Nat.eqb (length q) 0) eqn:E; [discriminate|].
  destruct (same_dim q ys) eqn:D; [|discriminate].
  injection H as <-. apply Nat.eqb_neq in E. auto.
Qed.


Lemma cosine_similarity_ok :
  forall q ys,
    length q <> 0%nat -> same_dim q ys = true ->
    cosine_similarity q ys = Some (map (cosine q) ys).
Proof.
  intros q ys Hq Hd. unfold cosine_similarity.
  apply Nat.eqb_neq in Hq. rewrite Hq, Hd. reflexivity.
Qed.

(** The two outcomes of a search over a non-empty store, once the
    similarities and the position of the best one are known. *)
Lemma match_1_to_n_step :
  forall thr q db t0 t1 sims i,
    db <> [] ->
    cosine_similarity q (map cand_embedding db) = Some sims ->
    argmax sims = Some i ->
    match_1_to_n thr q db t0 t1
    = if Rge_dec (nth i sims 0) thr
      then Some (nth_error (map cand_id db) i, nth_error (map cand_name db) i,
                 nth i sims 0, (t1 - t0) * 1000)
      else Some (None, None, nth i sims 0, (t1 - t0) * 1000).
Proof.
  intros thr q db t0 t1 sims i Hne Hs Ha. unfold match_1_to_n.
  destruct db as [|c db]; [congruence|].
  cbn [length Nat.eqb]. rewrite Hs, Ha. reflexivity.
Qed.

Lemma nth_error_some_nonempty :
  forall (A : Type) (l : list A) i x, nth_error l i = Some x -> l <> [].
Proof. intros A [|y l] [|i] x H; cbn in H; congruence. Qed.

(** The matched branch names the candidate at the stable argmax. *)
Lemma match_at_first_max :
  forall thr q (db : list Candidate) t0 t1 sims i sid name e,
    cosine_similarity q (map cand_embedding db) = Some sims ->
    is_first_max sims i ->
    nth i sims 0 >= thr ->
    nth_error db i = Some (sid, name, e) ->
    match_1_to_n thr q db t0 t1
    = Some (Some sid, Some name, nth i sims 0, (t1 - t0) * 1000).
Proof.
  intros thr q db t0 t1 sims i sid name e Hs Hfm Hthr Hnth.
  rewrite (match_1_to_n_step thr q db t0 t1 sims i
             (nth_error_some_nonempty _ db i _ Hnth) Hs
             (first_max_is_argmax sims i Hfm)).
  destruct (Rge_dec (nth i sims 0) thr) as [_|N]; [|contradiction].
  rewrite !nth_error_map, Hnth. reflexivity.
Qed.

(** The unmatched branch reports the score at the stable argmax. *)
Lemma match_below_threshold :
  forall thr q db t0 t1 sims i,
    db <> [] ->
    cosine_similarity q (map cand_embedding db) = Some sims ->
    is_first_max sims i ->
    nth i sims 0 < thr ->
    match_1_to_n thr q db t0 t1
    = Some (None, None, nth i sims 0, (t1 - t0) * 1000).
Proof.
  intros thr q db t0 t1 sims i Hne Hs Hfm Hthr.
  rewrite (match_1_to_n_step thr q db t0 t1 sims i Hne Hs
             (first_max_is_argmax sims i Hfm)).
  destruct (Rge_dec (nth i sims 0) thr) as [G|_]; [lra|reflexivity].
Qed.

(** ** The concrete stores of [Samples] *)

Lemma norm_e1 : norm e1 = 1.
Proof.
  unfold norm, e1. cbn [dot].
  replace (1 * 1 + (0 * 0 + 0)) with 1 by ring. apply sqrt_1.
Qed.

Lemma norm_e2 : norm e2 = 1.
Proof.
  unfold norm, e2. cbn [dot].
  replace (0 * 0 + (1 * 1 + 0)) with 1 by ring. apply sqrt_1.
Qed.

Lemma norm_zero2 : norm zero2 = 0.
Proof. apply (norm_repeat_zero 2). Qed.

Lemma handle_zeros_1 : handle_zeros_in_scale 1 = 1.
Proof. apply handle_zeros_nonzero. lra. Qed.

Lemma cosine_e1_e1 : cosine e1 e1 = 1.
Proof. apply cosine_self. rewrite norm_e1. lra. Qed.

Lemma cosine_e1_e2 : cosine e1 e2 = 0.
Proof.
  rewrite cosine_alt, norm_e1, norm_e2, handle_zeros_1.
  unfold e1, e2. cbn [dot]. field.
Qed.

Lemma cosine_zero2_zero2 : cosine zero2 zero2 = 0.
Proof.
  unfold cosine. rewrite (normalize_zero_norm zero2 norm_zero2).
  apply (dot_repeat_zero_l 2).
Qed.

Lemma twins_similarities :
  cosine_similarity e1 (map cand_embedding twins) = Some [1; 1; 0].
Proof.
  unfold cosine_similarity. cbn [length Nat.eqb e1 twins map cand_embedding snd same_dim forallb andb].
  fold e1. fold e2. rewrite cosine_e1_e1, cosine_e1_e2. reflexivity.
Qed.

Lemma twins_first_max : is_first_max [1; 1; 0] 0.
Proof.
  repeat split.
  - cbn. lia.
  - intros [|[|[|j]]] Hj; cbn in *; try lra; lia.
  - intros j Hj. lia.
Qed.

Lemma blank_similarities :
  cosine_similarity zero2 (map cand_embedding blank) = Some [0].
Proof.
  unfold cosine_similarity.
  cbn [length Nat.eqb zero2 blank map cand_embedding snd same_dim forallb andb].
  fold zero2. rewrite cosine_zero2_zero2. reflexivity.
Qed.

Lemma singleton_first_max : forall x, is_first_max [x] 0.
Proof.
  intro x. repeat split.
  - cbn. lia.
  - intros [|j] Hj; cbn in *; [lra|lia].
  - intros j Hj. lia.
Qed.

Lemma threshold_below_one : 1 >= Config.COSINE_SIMILARITY_THRESHOLD.
Proof. unfold Config.COSINE_SIMILARITY_THRESHOLD. lra. Qed.



Lemma norm_3_4 : norm [3; 4] = 5.
Proof.
  unfold norm. cbn [dot].
  replace (3 * 3 + (4 * 4 + 0)) with (5 * 5) by ring.
  apply sqrt_square. lra.
Qed.

Lemma norm_m1_0 : norm [-1; 0] = 1.
Proof.
  unfold norm. cbn [dot].
  replace (-1 * -1 + (0 * 0 + 0)) with 1 by ring. apply sqrt_1.
Qed.

Lemma handle_zeros_5 : handle_zeros_in_scale 5 = 5.
Proof. apply handle_zeros_nonzero. lra. Qed.

Lemma mixed_similarities :
  cosine_similarity e1 (map cand_embedding mixed) = Some [0; 3 / 5; -1].
Proof.
  unfold cosine_similarity.
  cbn [length Nat.eqb e1 mixed map cand_embedding snd same_dim forallb andb e2].
  fold e1. fold e2. rewrite cosine_e1_e2.
  rewrite !cosine_alt, norm_e1, norm_3_4, norm_m1_0, handle_zeros_1,
    handle_zeros_5.
  unfold e1. cbn [dot]. repeat f_equal; field.
Qed.

Lemma mixed_first_max : is_first_max [0; 3 / 5; -1] 1.
Proof.
  repeat split.
  - cbn. lia.
  - intros [|[|[|j]]] Hj; cbn in *; try lra; lia.
  - intros [|j] Hj; cbn; [lra|lia].
Qed.

(** ** The claims about [match_1_to_n] *)


(** C2.  Whenever a search over a non-empty store ends without an
    identity, the reported score is the maximum of the cosine
    similarities between the query and all candidate signatures, and it
    is below the threshold. *)
Theorem C2_no_match_reports_true_maximum :
  forall thr q db t0 t1 s t,
    db <> [] ->
    match_1_to_n thr q db t0 t1 = Some (None, None, s, t) ->
    s = max_of (map (cosine q) (map cand_embedding db)) /\ s < thr.
Proof.
  intros thr q db t0 t1 s t Hne H.
  destruct (cosine_similarity q (map cand_embedding db)) as [sims|] eqn:Hs.
  2:{ unfold match_1_to_n in H. destruct db; [congruence|].
      cbn [length Nat.eqb] in H. rewrite Hs in H. discriminate. }
  destruct (cosine_similarity_some _ _ _ Hs) as (Hsims & _ & _).
  assert (Hsne : sims <> []).
  { rewrite Hsims. destruct db; [congruence|]. cbn. discriminate. }
  destruct (argmax_nonempty sims Hsne) as [i Hi].
  pose proof (argmax_is_first_max sims i Hi) as Hfm.
  rewrite (match_1_to_n_step thr q db t0 t1 sims i Hne Hs Hi) in H.
  destruct (Rge_dec (nth i sims 0) thr) as [G|NG].
  - exfalso. destruct Hfm as (Hlt & _).
    assert (Hid : nth_error (map cand_id db) i <> None).
    { apply nth_error_Some. rewrite length_map.
      rewrite Hsims, !length_map in Hlt. exact Hlt. }
    injection H as H1 _ _ _. congruence.
  - injection H as <- _. split.
    + rewrite <- Hsims. apply first_max_value, Hfm.
    + lra.
Qed.

(** C6.  Whatever the store, if position [i] holds the first maximal
    cosine similarity (every score is at most the one at [i], every
    earlier score is strictly smaller) and that score reaches the
    threshold, the identity returned is the one enrolled at [i]: ties
    for the maximum go to the earliest candidate. *)
Theorem C6_ties_go_to_first_candidate :
  forall thr q (db : list Candidate) t0 t1 sims i sid name e,
    cosine_similarity q (map cand_embedding db) = Some sims ->
    is_first_max sims i ->
    nth i sims 0 >= thr ->
    nth_error db i = Some (sid, name, e) ->
    match_1_to_n thr q db t0 t1
    = Some (Some sid, Some name, nth i sims 0, (t1 - t0) * 1000).
Proof. exact match_at_first_max. Qed.

(** C10.  On an empty store the matcher answers with no identity, score
    0 and search time 0, whatever the query, the threshold and the
    clock. *)
Theorem C10_empty_store :
  forall thr q t0 t1,
    match_1_to_n thr q [] t0 t1 = Some (None, None, 0, 0).
Proof. intros. reflexivity. Qed.


(** It also fails on a zero signature: queried with the very vector that
    is enrolled, the matcher finds similarity 0 and names nobody. *)
Lemma zero_signature_is_not_matched :
  default_match_1_to_n zero2 blank 0 0 = Some (None, None, 0, (0 - 0) * 1000).
Proof.
  apply (match_below_threshold Config.COSINE_SIMILARITY_THRESHOLD zero2 blank
           0 0 [0] 0).
  - discriminate.
  - exact blank_similarities.
  - apply singleton_first_max.
  - cbn. unfold Config.COSINE_SIMILARITY_THRESHOLD. lra.
Qed.


Lemma C2_witness :
  3 / 5 = max_of (map (cosine e1) (map cand_embedding mixed))
  /\ 3 / 5 < Config.COSINE_SIMILARITY_THRESHOLD.
Proof.
  apply (C2_no_match_reports_true_maximum Config.COSINE_SIMILARITY_THRESHOLD
           e1 mixed 0 0 (3 / 5) ((0 - 0) * 1000)).
  - discriminate.
  - apply (match_below_threshold Config.COSINE_SIMILARITY_THRESHOLD e1 mixed
             0 0 [0; 3 / 5; -1] 1).
    + discriminate.
    + exact mixed_similarities.
    + exact mixed_first_max.
    + cbn. unfold Config.COSINE_SIMILARITY_THRESHOLD. lra.
Defined.

Lemma C6_witness :
  match_1_to_n Config.COSINE_SIMILARITY_THRESHOLD e1 twins 0 0
  = Some (Some "S001", Some "Asha", nth 0 [1; 1; 0] 0, (0 - 0) * 1000).
Proof.
  apply (C6_ties_go_to_first_candidate Config.COSINE_SIMILARITY_THRESHOLD
           e1 twins 0 0 [1; 1; 0] 0 "S001" "Asha" e1).
  - exact twins_similarities.
  - exact twins_first_max.
  - cbn. apply threshold_below_one.
  - reflexivity.
Defined.

End MatcherFacts.

(* ================================================================== *)
(** * Facts about the embedder *)
(* ================================================================== *)

Module EmbedderFacts.

Local Open Scope R_scope.
Import Np NpFacts Embedder Samples.

Lemma fit_dimension_length :
  forall raw, length (fit_dimension raw) = Config.EMBEDDING_DIM.
Proof.
  intro raw. unfold fit_dimension.
  destruct (Nat.eqb (length raw) Config.EMBEDDING_DIM) eqn:E.
  - apply Nat.eqb_eq, E.
  - destruct (Nat.ltb (length raw) Config.EMBEDDING_DIM) eqn:L.
    + apply Nat.ltb_lt in L. unfold pad_right.
      rewrite length_app, repeat_length. lia.
    + apply Nat.ltb_ge in L. rewrite length_firstn. lia.
Qed.

Lemma _normalize_embedding_length :
  forall v, length (_normalize_embedding v) = length v.
Proof.
  intro v. unfold _normalize_embedding.
  destruct (Req_dec_T (norm v) 0); [reflexivity|apply length_map].
Qed.

Lemma _normalize_embedding_zero :
  forall v, norm v = 0 -> _normalize_embedding v = repeat 0 (length v).
Proof.
  intros v H. unfold _normalize_embedding.
  destruct (Req_dec_T (norm v) 0) as [_|N]; [|contradiction].
  apply norm_zero_all_zero, H.
Qed.


(** The embedder on a usable crop: the fitted and normalised output. *)
Lemma generate_embedding_run :
  forall self run img raw,
    session self = Some run ->
    Cv.size img <> 0%Z ->
    run img = Some raw ->
    generate_embedding self (Some img)
    = Some (_normalize_embedding (fit_dimension raw)).
Proof.
  intros self run img raw Hs Hsz Hr. unfold generate_embedding.
  rewrite Hs. apply Z.eqb_neq in Hsz. rewrite Hsz, Hr. reflexivity.
Qed.

Lemma generate_embedding_zero_norm :
  forall self run img raw,
    session self = Some run ->
    Cv.size img <> 0%Z ->
    run img = Some raw ->
    norm (fit_dimension raw) = 0 ->
    generate_embedding self (Some img) = Some (repeat 0 Config.EMBEDDING_DIM).
Proof.
  intros self run img raw Hs Hsz Hr Hn.
  rewrite (generate_embedding_run self run img raw Hs Hsz Hr).
  rewrite (_normalize_embedding_zero _ Hn), fit_dimension_length. reflexivity.
Qed.

Lemma fit_dimension_zeros : fit_dimension zeros = zeros.
Proof. reflexivity. Qed.

Lemma dead_embedder_output :
  generate_embedding dead_embedder (Some pixel_frame) = Some zeros.
Proof.
  apply (generate_embedding_zero_norm dead_embedder (fun _ => Some zeros)
           pixel_frame zeros).
  - reflexivity.
  - discriminate.
  - reflexivity.
  - rewrite fit_dimension_zeros. apply norm_repeat_zero.
Qed.

Lemma dot_app :
  forall a b c d,
    length a = length b -> dot (a ++ c) (b ++ d) = dot a b + dot c d.
Proof.
  induction a as [|x a IH]; intros [|y b] c d H; cbn in H; try discriminate.
  - cbn. ring.
  - cbn [app dot]. rewrite IH by (injection H as H; exact H). ring.
Qed.

Lemma norm_pad_right : forall v n, norm (pad_right v n) = norm v.
Proof.
  intros v n. unfold norm, pad_right.
  rewrite dot_app by reflexivity. rewrite dot_repeat_zero_l, Rplus_0_r.
  reflexivity.
Qed.


(** ** The claims about [generate_embedding] *)

(** C3, as amended.  When the model output, padded or truncated to 512
    components, has L2 norm zero, [generate_embedding] divides nothing and
    returns that vector as it is, the zero vector of 512 components; it
    does not return [None]. *)
Theorem C3_zero_norm_output_returned_unchanged :
  forall self run img raw,
    session self = Some run ->
    Cv.size img <> 0%Z ->
    run img = Some raw ->
    norm (fit_dimension raw) = 0 ->
    generate_embedding self (Some img) = Some (repeat 0 Config.EMBEDDING_DIM).
Proof. exact generate_embedding_zero_norm. Qed.

(** C3 as stated fails when the model answers with the zero vector: the
    norm is zero and a vector comes back. *)
Lemma C3_zero_output_counterexample :
  norm (fit_dimension zeros) = 0
  /\ generate_embedding dead_embedder (Some pixel_frame) = Some zeros.
Proof.
  split; [rewrite fit_dimension_zeros; apply norm_repeat_zero|].
  exact dead_embedder_output.
Qed.

Lemma C3_witness :
  generate_embedding dead_embedder (Some pixel_frame)
  = Some (repeat 0 Config.EMBEDDING_DIM).
Proof.
  apply (C3_zero_norm_output_returned_unchanged dead_embedder
           (fun _ => Some zeros) pixel_frame zeros).
  - reflexivity.
  - discriminate.
  - reflexivity.
  - rewrite fit_dimension_zeros. apply norm_repeat_zero.
Defined.




End EmbedderFacts.

(* ================================================================== *)
(** * Facts about the detector *)
(* ================================================================== *)

Module DetectorFacts.

Local Open Scope Z_scope.
Import Detector Samples.

Lemma cvtColor_none :
  forall image, Cv.size image = 0 -> Cv.cvtColor image = None.
Proof.
  intros image H. unfold Cv.cvtColor. rewrite H. reflexivity.
Qed.

(** On a frame without pixels both methods of the detector raise. *)
Lemma detector_raises_on_empty_frame :
  forall self image,
    Cv.size image = 0 ->
    detect_single_face self image = None
    /\ detect_faces_count self image = None.
Proof.
  intros self image H. unfold detect_single_face, detect_faces_count.
  rewrite (cvtColor_none image H). split; reflexivity.
Qed.

Lemma slice_exact :
  forall n start len,
    0 <= start -> 0 <= len -> start + len <= n ->
    Cv.slice_bound n start = start /\ Cv.slice_len n start (start + len) = len.
Proof.
  intros n start len Hs Hl Hn. unfold Cv.slice_len, Cv.slice_bound.
  destruct (Z.ltb_spec start 0); destruct (Z.ltb_spec (start + len) 0); lia.
Qed.

(** C8.  On a frame with pixels, whose converted image MediaPipe sees:
    [detect_single_face] returns [None] exactly when the number of
    detected faces, as [detect_faces_count] reports it, is not 1, and
    that number is 1 exactly when the detections are a list of one.  For
    that one detection the method returns one crop with its box and the
    detection's confidence: the box is the detected box in pixels, grown
    by the padding of 20 on every side and clipped to the frame, and the
    crop is the frame cut to the box, pixel by pixel when the box has a
    width and a height. *)
Theorem C8_single_face_or_none :
  forall self image image_rgb,
    Cv.cvtColor image = Some image_rgb ->
    (detect_single_face self image = Some None
     <-> detect_faces_count self image <> Some 1%nat)
    /\ (detect_faces_count self image = Some 1%nat
        <-> exists detection, face_detection self image_rgb = Some [detection])
    /\ (forall detection,
          face_detection self image_rgb = Some [detection] ->
          let h := Cv.shape_h image in
          let w := Cv.shape_w image in
          let box := relative_bounding_box detection in
          let x := Z.max 0 (int_of (xmin box * inject_Z w) - 20) in
          let y := Z.max 0 (int_of (ymin box * inject_Z h) - 20) in
          let box_w := Z.min (w - x) (int_of (width box * inject_Z w) + 40) in
          let box_h := Z.min (h - y) (int_of (height box * inject_Z h) + 40) in
          exists face_crop,
            detect_single_face self image
            = Some (Some (face_crop,
                          {| bbox := (x, y, box_w, box_h);
                             confidence := score detection |}))
            /\ face_crop = Cv.crop image y (y + box_h) x (x + box_w)
            /\ (0 <= box_w -> 0 <= box_h ->
                Cv.shape_h face_crop = box_h
                /\ Cv.shape_w face_crop = box_w
                /\ forall r c,
                     Cv.at_ face_crop r c = Cv.at_ image (y + r) (x + c))).
Proof.
  intros self image image_rgb Hrgb.
  split; [|split].
  - unfold detect_single_face, detect_faces_count. rewrite Hrgb.
    destruct (face_detection self image_rgb) as [[|d [|d' l]]|]; cbn;
      split; intro H;
      first [reflexivity | discriminate H | discriminate
            | exfalso; apply H; reflexivity].
  - unfold detect_faces_count. rewrite Hrgb.
    destruct (face_detection self image_rgb) as [[|d [|d' l]]|]; cbn.
    + split; [intro H; discriminate H|intros [d0 H]; discriminate H].
    + split; [intros _; exists d; reflexivity|reflexivity].
    + split; [intro H; discriminate H|intros [d0 H]; discriminate H].
    + split; [intro H; discriminate H|intros [d0 H]; discriminate H].
  - intros detection Hd h w box x y box_w box_h.
    unfold detect_single_face. rewrite Hrgb, Hd. cbn [falsy len length Nat.eqb negb orb].
    unfold crop_detection. cbn zeta. unfold Config.FACE_CROP_PADDING.
    change (2 * 20) with 40.
    fold h. fold w. fold box. fold x. fold y. fold box_w. fold box_h.
    eexists. split; [reflexivity|]. split; [reflexivity|].
    intros Hw Hh.
    assert (Hx : 0 <= x) by (unfold x; lia).
    assert (Hy : 0 <= y) by (unfold y; lia).
    assert (Hxw : x + box_w <= w) by (unfold box_w; lia).
    assert (Hyh : y + box_h <= h) by (unfold box_h; lia).
    destruct (slice_exact h y box_h Hy Hh Hyh) as [By Ly].
    destruct (slice_exact w x box_w Hx Hw Hxw) as [Bx Lx].
    cbn [Cv.crop Cv.shape_h Cv.shape_w Cv.at_]. fold h. fold w.
    rewrite By, Bx. repeat split; assumption.
Qed.

Lemma C8_witness :
  exists face_crop,
    detect_single_face inner_detector wide_frame
    = Some (Some (face_crop,
                  {| bbox := (10, 20, 60, 50); confidence := 95 # 100 |}))
    /\ face_crop = Cv.crop wide_frame 20 (20 + 50) 10 (10 + 60)
    /\ (0 <= 60 -> 0 <= 50 ->
        Cv.shape_h face_crop = 50
        /\ Cv.shape_w face_crop = 60
        /\ forall r c,
             Cv.at_ face_crop r c = Cv.at_ wide_frame (20 + r) (10 + c)).
Proof.
  exact (proj2 (proj2 (C8_single_face_or_none inner_detector wide_frame
                         _ eq_refl))
           inner_face eq_refl).
Defined.

End DetectorFacts.

(* ================================================================== *)
(** * Facts about the attendance log *)
(* ================================================================== *)

Module DatabaseFacts.

Local Open Scope string_scope.
Local Open Scope list_scope.
Import Database Samples.

(** A call of [log_attendance] keeps every row already there. *)
Lemma log_attendance_extends :
  forall db sid status score time now,
    exists rows,
      attendance_logs (fst (log_attendance db sid status score time now))
      = attendance_logs db ++ rows.
Proof.
  intros db sid status score time now. unfold log_attendance.
  destruct (status_check status); cbn.
  - eexists. reflexivity.
  - exists []. symmetry. apply app_nil_r.
Qed.

Lemma log_all_extends :
  forall calls db,
    exists rows, attendance_logs (log_all db calls) = attendance_logs db ++ rows.
Proof.
  induction calls as [|c calls IH]; intro db; cbn.
  - exists []. symmetry. apply app_nil_r.
  - destruct (IH (fst (log_attendance db (call_student_id c) (call_status c)
                         (call_similarity_score c) (call_processing_time_ms c)
                         (call_now c)))) as [rows Hrows].
    destruct (log_attendance_extends db (call_student_id c) (call_status c)
                (call_similarity_score c) (call_processing_time_ms c)
                (call_now c)) as [rows0 Hrows0].
    exists (rows0 ++ rows). unfold log_all in Hrows. rewrite Hrows, Hrows0.
    symmetry. apply app_assoc.
Qed.

Lemma check_attendance_today_true :
  forall db student_id now,
    check_attendance_today db student_id now = true
    <-> exists row, In row (attendance_logs db)
                    /\ marked_today student_id now row = true.
Proof.
  intros db student_id now. unfold check_attendance_today.
  rewrite Nat.ltb_lt. split.
  - intro H.
    destruct (filter (marked_today student_id now) (attendance_logs db))
      as [|row l] eqn:E; [cbn in H; lia|].
    exists row. apply filter_In. rewrite E. left. reflexivity.
  - intros (row & Hin & Hm).
    assert (Hf : In row (filter (marked_today student_id now) (attendance_logs db)))
      by (apply filter_In; auto).
    destruct (filter (marked_today student_id now) (attendance_logs db));
      [contradiction|cbn; lia].
Qed.

(** Appending never turns a positive answer into a negative one. *)
Lemma check_attendance_today_stable :
  forall db calls student_id now,
    check_attendance_today db student_id now = true ->
    check_attendance_today (log_all db calls) student_id now = true.
Proof.
  intros db calls student_id now H.
  apply check_attendance_today_true in H. destruct H as (row & Hin & Hm).
  apply check_attendance_today_true. exists row. split; [|exact Hm].
  destruct (log_all_extends calls db) as [rows ->].
  apply in_or_app. left. exact Hin.
Qed.

(** C5: where the code departs from the claim.  [log_attendance] stores
    the local time of the host and [check_attendance_today] compares its
    date with the UTC date.  On a host five and a half hours ahead of
    UTC, S001 is matched at 20:30 UTC, local time 02:00 of the next day;
    one second later, the same local day, the row is in the log and
    [check_attendance_today] answers false. *)
Theorem C5_local_timestamp_missed_by_utc_today :
  sql_date (datetime_now ist half_past_eight_utc)
  = sql_date (datetime_now ist (half_past_eight_utc + 1))
  /\ (exists row,
        attendance_logs night_log = [row]
        /\ row_student_id row = Some "S001"
        /\ row_status row = "SUCCESS"
        /\ row_timestamp row = datetime_now ist half_past_eight_utc)
  /\ check_attendance_today night_log "S001"
       (sqlite_now (half_past_eight_utc + 1))
     = false.
Proof.
  split; [reflexivity|]. split; [|reflexivity].
  eexists. split; [reflexivity|]. repeat split.
Qed.

End DatabaseFacts.

(* ================================================================== *)
(** * Facts about the orchestrator *)
(* ================================================================== *)

Module AttendanceFacts.

Local Open Scope R_scope.
Local Open Scope string_scope.
Local Open Scope list_scope.
Import Np NpFacts Database DatabaseFacts Attendance Samples.

(** One completed cycle is one accepted [log_attendance] call. *)
Lemma process_attendance_logs_once :
  forall frame detector embedder liveness_detector thr db clock res db',
    process_attendance frame detector embedder liveness_detector thr db clock
    = Some (res, db') ->
    exists row,
      db' = {| students := students db;
               attendance_logs := attendance_logs db ++ [row] |}.
Proof.
  intros frame detector embedder liveness_detector thr db clock res db' H.
  unfold process_attendance in H.
  destruct (Detector.detect_single_face detector frame)
    as [[[face_crop info]|]|]; [| |discriminate].
  - destruct (Embedder.generate_embedding embedder (Some face_crop)) as [emb|].
    + destruct (Matcher.match_1_to_n thr emb (get_all_embeddings db)
                  (t_search_start clock) (t_search_end clock))
        as [[[[sid name] score] search]|]; [|discriminate].
      injection H as _ <-. destruct sid; eexists; reflexivity.
    + injection H as _ <-. eexists. reflexivity.
  - injection H as _ <-. eexists. reflexivity.
Qed.

(** A frame without pixels: the conversion in the detector raises, the
    cycle does not complete and nothing is logged. *)
Lemma process_attendance_empty_frame :
  forall frame detector embedder liveness_detector thr db clock,
    Cv.size frame = 0%Z ->
    process_attendance frame detector embedder liveness_detector thr db clock
    = None.
Proof.
  intros frame detector embedder liveness_detector thr db clock H.
  unfold process_attendance.
  destruct (DetectorFacts.detector_raises_on_empty_frame detector frame H)
    as [-> _].
  reflexivity.
Qed.

(** C4.  After any number of completed cycles the attendance log is the
    old log followed by exactly one new row per cycle, whatever the
    outcomes of the cycles were. *)
Theorem C4_one_row_per_cycle :
  forall detector embedder liveness_detector thr cycles db db',
    run_cycles detector embedder liveness_detector thr cycles db = Some db' ->
    exists rows,
      attendance_logs db' = attendance_logs db ++ rows
      /\ length rows = length cycles.
Proof.
  intros detector embedder liveness_detector thr cycles.
  induction cycles as [|[frame clock] cycles IH]; intros db db' H; cbn in H.
  - injection H as <-. exists []. split; [symmetry; apply app_nil_r|reflexivity].
  - destruct (process_attendance frame detector embedder liveness_detector
                thr db clock) as [[res db1]|] eqn:E; [|discriminate].
    destruct (process_attendance_logs_once _ _ _ _ _ _ _ _ _ E) as [row ->].
    destruct (IH _ _ H) as (rows & Hrows & Hlen).
    exists (row :: rows). cbn in Hrows |- *. split.
    + rewrite Hrows, <- app_assoc. reflexivity.
    + rewrite Hlen. reflexivity.
Qed.

(** ** A run through the four outcomes *)

Lemma norm_unit512 : norm unit512 = 1.
Proof.
  unfold norm, unit512. cbn [dot]. rewrite dot_repeat_zero_l.
  replace (1 * 1 + 0) with 1 by ring. apply sqrt_1.
Qed.

Lemma norm_other512 : norm other512 = 1.
Proof.
  unfold norm, other512. cbn [dot]. rewrite dot_repeat_zero_l.
  replace (0 * 0 + (1 * 1 + 0)) with 1 by ring. apply sqrt_1.
Qed.

Lemma _normalize_embedding_of_unit :
  forall v, norm v = 1 -> Embedder._normalize_embedding v = v.
Proof.
  intros v H. unfold Embedder._normalize_embedding. rewrite H.
  destruct (Req_dec_T 1 0) as [E|_]; [lra|apply map_div_one].
Qed.

Lemma cosine_other_unit : cosine other512 unit512 = 0.
Proof.
  rewrite MatcherFacts.cosine_alt.
  replace (dot other512 unit512) with 0; [unfold Rdiv; ring|].
  unfold other512, unit512. change (repeat 0 511) with (0 :: repeat 0 510).
  cbn [dot]. rewrite dot_repeat_zero_l. ring.
Qed.

Lemma crop_of_rows :
  forall n,
    (n = 1 \/ n = 2 \/ n = 3)%Z ->
    Detector.detect_single_face row_detector (frame_rows n)
    = Some (Some (fst (Detector.crop_detection (frame_rows n) whole_frame),
                  snd (Detector.crop_detection (frame_rows n) whole_frame))).
Proof. intros n [->|[->| ->]]; reflexivity. Qed.

Lemma embedding_one_row :
  Embedder.generate_embedding sized_embedder
    (Some (fst (Detector.crop_detection (frame_rows 1) whole_frame)))
  = Some unit512.
Proof.
  rewrite (EmbedderFacts.generate_embedding_run sized_embedder _ _ [1] eq_refl);
    [|discriminate|reflexivity].
  change (Embedder.fit_dimension [1]) with unit512.
  rewrite (_normalize_embedding_of_unit unit512 norm_unit512). reflexivity.
Qed.

Lemma embedding_two_rows :
  Embedder.generate_embedding sized_embedder
    (Some (fst (Detector.crop_detection (frame_rows 2) whole_frame)))
  = Some other512.
Proof.
  rewrite (EmbedderFacts.generate_embedding_run sized_embedder _ _ [0; 1] eq_refl);
    [|discriminate|reflexivity].
  change (Embedder.fit_dimension [0; 1]) with other512.
  rewrite (_normalize_embedding_of_unit other512 norm_other512). reflexivity.
Qed.

Lemma match_unit512 :
  Matcher.match_1_to_n Config.COSINE_SIMILARITY_THRESHOLD unit512 enrolled 0 0
  = Some (Some "S001", Some "Asha", 1, (0 - 0) * 1000).
Proof.
  assert (Hs : cosine_similarity unit512 (map Matcher.cand_embedding enrolled)
               = Some [1]).
  { rewrite MatcherFacts.cosine_similarity_ok; [|discriminate|reflexivity].
    cbn [map enrolled Matcher.cand_embedding snd].
    rewrite cosine_self; [reflexivity|rewrite norm_unit512; lra]. }
  apply (MatcherFacts.match_at_first_max Config.COSINE_SIMILARITY_THRESHOLD
           unit512 enrolled 0 0 [1] 0 "S001" "Asha" unit512 Hs
           (MatcherFacts.singleton_first_max 1)).
  - cbn. apply MatcherFacts.threshold_below_one.
  - reflexivity.
Qed.

Lemma match_other512 :
  Matcher.match_1_to_n Config.COSINE_SIMILARITY_THRESHOLD other512 enrolled 0 0
  = Some (None, None, 0, (0 - 0) * 1000).
Proof.
  assert (Hs : cosine_similarity other512 (map Matcher.cand_embedding enrolled)
               = Some [0]).
  { rewrite MatcherFacts.cosine_similarity_ok; [|discriminate|reflexivity].
    cbn [map enrolled Matcher.cand_embedding snd].
    rewrite cosine_other_unit. reflexivity. }
  apply (MatcherFacts.match_below_threshold Config.COSINE_SIMILARITY_THRESHOLD
           other512 enrolled 0 0 [0] 0).
  - discriminate.
  - exact Hs.
  - apply MatcherFacts.singleton_first_max.
  - cbn. unfold Config.COSINE_SIMILARITY_THRESHOLD. lra.
Qed.

Lemma no_face_cycle :
  forall rows,
    process_attendance (frame_rows 4) row_detector sized_embedder still_mesh
      Config.COSINE_SIMILARITY_THRESHOLD (with_log rows) tick
    = Some ((None, Some "No face detected"), with_log (rows ++ [failure_row])).
Proof. intro rows. reflexivity. Qed.

Lemma embedding_failure_cycle :
  forall rows,
    process_attendance (frame_rows 3) row_detector sized_embedder still_mesh
      Config.COSINE_SIMILARITY_THRESHOLD (with_log rows) tick
    = Some ((None, Some "Embedding generation failed"),
            with_log (rows ++ [failure_row])).
Proof. intro rows. reflexivity. Qed.

Lemma no_match_cycle :
  forall rows,
    process_attendance (frame_rows 2) row_detector sized_embedder still_mesh
      Config.COSINE_SIMILARITY_THRESHOLD (with_log rows) tick
    = Some ((Some {| student_id := None;
                     student_name := None;
                     similarity_score := 0;
                     processing_time := (0 - 0) * 1000;
                     liveness := "Skipped for speed";
                     is_live := true |}, None),
            with_log (rows ++ [failure_row])).
Proof.
  intro rows. unfold process_attendance.
  rewrite (crop_of_rows 2) by tauto. rewrite embedding_two_rows.
  change (get_all_embeddings (with_log rows)) with enrolled.
  change (t_search_start tick) with 0. change (t_search_end tick) with 0.
  rewrite match_other512. reflexivity.
Qed.

Lemma match_cycle :
  forall rows,
    process_attendance (frame_rows 1) row_detector sized_embedder still_mesh
      Config.COSINE_SIMILARITY_THRESHOLD (with_log rows) tick
    = Some ((Some {| student_id := Some "S001";
                     student_name := Some "Asha";
                     similarity_score := 1;
                     processing_time := (0 - 0) * 1000;
                     liveness := "Skipped for speed";
                     is_live := true |}, None),
            with_log (rows ++ [success_row])).
Proof.
  intro rows. unfold process_attendance.
  rewrite (crop_of_rows 1) by tauto. rewrite embedding_one_row.
  change (get_all_embeddings (with_log rows)) with enrolled.
  change (t_search_start tick) with 0. change (t_search_end tick) with 0.
  rewrite match_unit512. reflexivity.
Qed.

Lemma four_cycles_run :
  run_cycles row_detector sized_embedder still_mesh
    Config.COSINE_SIMILARITY_THRESHOLD four_cycles enrolled_db
  = Some four_rows.
Proof.
  unfold four_cycles. cbn [run_cycles].
  change enrolled_db with (with_log []).
  rewrite no_face_cycle, embedding_failure_cycle, no_match_cycle, match_cycle.
  reflexivity.
Qed.

Lemma C4_witness :
  exists rows,
    attendance_logs four_rows = attendance_logs enrolled_db ++ rows
    /\ length rows = length four_cycles.
Proof.
  apply (C4_one_row_per_cycle row_detector sized_embedder still_mesh
           Config.COSINE_SIMILARITY_THRESHOLD four_cycles enrolled_db four_rows).
  exact four_cycles_run.
Defined.

End AttendanceFacts.

(* ================================================================== *)
(** * Facts about the liveness check *)
(* ================================================================== *)

Module LivenessFacts.

Local Open Scope R_scope.
Local Open Scope string_scope.
Local Open Scope list_scope.
Import Np NpFacts Liveness Samples.

(** ** Mean and variance of a constant array *)

Lemma sum_repeat : forall c n, sum (repeat c n) = INR n * c.
Proof.
  intros c n. induction n as [|n IH].
  - cbn. ring.
  - cbn [repeat sum]. rewrite IH, S_INR. ring.
Qed.

Lemma mean_all_zero :
  forall l, (forall x, In x l -> x = 0) -> mean l = 0.
Proof.
  intros l H. unfold mean.
  assert (Hs : sum l = 0).
  { induction l as [|x l IH]; cbn; [reflexivity|].
    rewrite (H x (or_introl eq_refl)), IH; [ring|].
    intros y Hy. apply H. right. exact Hy. }
  rewrite Hs. unfold Rdiv. ring.
Qed.

Lemma mean_repeat :
  forall c n, (0 < n)%nat -> mean (repeat c n) = c.
Proof.
  intros c n Hn. unfold mean. rewrite sum_repeat, repeat_length.
  field. apply not_0_INR. lia.
Qed.

Lemma var_repeat : forall c n, var (repeat c n) = 0.
Proof.
  intros c n. unfold var. apply mean_all_zero.
  intros x Hx. apply in_map_iff in Hx. destruct Hx as (y & <- & Hy).
  destruct n as [|n]; [contradiction|].
  apply repeat_spec in Hy. subst y.
  rewrite mean_repeat by lia. ring.
Qed.

(** ** Identical landmarks in every frame *)

Lemma columns_repeat :
  forall r n,
    columns (repeat r (S n))
    = map (fun j => repeat (nth j r 0) (S n)) (seq 0 (length r)).
Proof.
  intros r n. unfold columns. cbn [repeat]. apply map_ext.
  intro j. change (r :: repeat r n) with (repeat r (S n)).
  apply map_repeat.
Qed.

Lemma movement_variance_static :
  forall l n, _calculate_movement_variance (repeat l n) = 0.
Proof.
  intros l n. unfold _calculate_movement_variance.
  rewrite map_repeat. apply mean_all_zero. intros x Hx.
  apply in_map_iff in Hx. destruct Hx as (col & <- & Hcol).
  destruct n as [|n]; [contradiction|].
  rewrite columns_repeat in Hcol. apply in_map_iff in Hcol.
  destruct Hcol as (j & <- & _). apply var_repeat.
Qed.

Lemma take_indices_some :
  forall l indices,
    (forall i, In i indices -> (i < length l)%nat) ->
    exists ps, take_indices l indices = Some ps
               /\ length ps = length indices.
Proof.
  intros l indices. induction indices as [|i rest IH]; intro H.
  - exists []. split; reflexivity.
  - destruct IH as (ps & Hps & Hlen).
    { intros k Hk. apply H. right. exact Hk. }
    destruct (nth_error l i) as [p|] eqn:E.
    + exists (p :: ps). cbn. rewrite E, Hps, Hlen. split; reflexivity.
    + apply nth_error_None in E.
      specialize (H i (or_introl eq_refl)). lia.
Qed.

Lemma _calculate_ear_in_range :
  forall (l : Landmarks) (indices : list nat),
    length indices = 6%nat ->
    (forall i, In i indices -> (i < length l)%nat) ->
    exists ear, _calculate_ear l indices = Some ear.
Proof.
  intros l indices H6 H.
  destruct (take_indices_some l indices H) as (ps & Hps & Hlen).
  rewrite H6 in Hlen. unfold _calculate_ear. rewrite Hps.
  destruct ps as [|p0 [|p1 [|p2 [|p3 [|p4 [|p5 [|p6 ps]]]]]]];
    cbn in Hlen; try discriminate.
  eexists. reflexivity.
Qed.

Lemma all_finite_repeat :
  forall x n, all_finite (repeat (Some x) n) = Some (repeat x n).
Proof.
  intros x n. induction n as [|n IH]; [reflexivity|].
  cbn [repeat all_finite]. rewrite IH. reflexivity.
Qed.

Lemma eye_indices_in_range :
  forall (l : Landmarks) i,
    (387 < length l)%nat ->
    In i LEFT_EYE_INDICES \/ In i RIGHT_EYE_INDICES ->
    (i < length l)%nat.
Proof.
  intros l i Hl [H|H]; cbn in H;
    repeat (destruct H as [<-|H]; [lia|]); contradiction.
Qed.

Lemma ear_values_static :
  forall (l : Landmarks) n,
    (387 < length l)%nat ->
    exists ear, ear_values (repeat l n) = Some (repeat ear n).
Proof.
  intros l n Hl.
  destruct (_calculate_ear_in_range l LEFT_EYE_INDICES eq_refl)
    as [left_ear Hleft].
  { intros i Hi. apply eye_indices_in_range; auto. }
  destruct (_calculate_ear_in_range l RIGHT_EYE_INDICES eq_refl)
    as [right_ear Hright].
  { intros i Hi. apply eye_indices_in_range; auto. }
  exists (average left_ear right_ear).
  induction n as [|n IH]; [reflexivity|].
  cbn [repeat ear_values]. rewrite Hleft, Hright, IH. reflexivity.
Qed.

Lemma Rgtb_zero : forall t, 0 < t -> Rgtb 0 t = false.
Proof.
  intros t Ht. unfold Rgtb. destruct (Rgt_dec 0 t) as [G|_]; [lra|reflexivity].
Qed.

Lemma _detect_blink_static :
  forall (l : Landmarks) n,
    (387 < length l)%nat -> _detect_blink (repeat l n) = Some false.
Proof.
  intros l n Hl. unfold _detect_blink.
  destruct (ear_values_static l n Hl) as [ear ->].
  assert (Ht : 0 < Config.EYE_ASPECT_RATIO_THRESHOLD)
    by (unfold Config.EYE_ASPECT_RATIO_THRESHOLD; lra).
  unfold var_of. destruct ear as [x|].
  - rewrite all_finite_repeat, var_repeat, (Rgtb_zero _ Ht). reflexivity.
  - destruct n as [|n]; [|reflexivity].
    pose proof (var_repeat 0 0) as E. cbn [repeat] in E.
    cbn [repeat all_finite]. rewrite E, (Rgtb_zero _ Ht). reflexivity.
Qed.

Lemma _extract_landmarks_some :
  forall self frame l,
    _extract_landmarks self frame = Some l ->
    call_extract_landmarks self frame = Some (Some l).
Proof.
  intros self frame l H. unfold _extract_landmarks in H.
  destruct (call_extract_landmarks self frame) as [[x|]|];
    [injection H as ->; reflexivity|discriminate|discriminate].
Qed.

Lemma extract_all_static :
  forall self frames l,
    (forall frame, In frame frames -> _extract_landmarks self frame = Some l) ->
    extract_all self frames = Some (Some (repeat l (length frames))).
Proof.
  intros self frames l. induction frames as [|frame frames IH]; intro H.
  - reflexivity.
  - cbn [extract_all length repeat].
    rewrite (_extract_landmarks_some self frame l (H frame (or_introl eq_refl))).
    rewrite IH; [reflexivity|].
    intros f Hf. apply H. right. exact Hf.
Qed.

(** C9.  On at least [LIVENESS_FRAMES_COUNT] frames that all yield the
    same landmarks (a face mesh, so every eye index is in range),
    [check_liveness] answers not live: the movement variance is zero, no
    blink is detected, and the reason given is the static image. *)
Theorem C9_static_replay_is_rejected :
  forall self frames l,
    (Config.LIVENESS_FRAMES_COUNT <= length frames)%nat ->
    (forall frame, In frame frames -> _extract_landmarks self frame = Some l) ->
    (387 < length l)%nat ->
    check_liveness self frames
    = Some (false, 0, "Static image detected (no movement)")
    /\ _calculate_movement_variance (repeat l (length frames)) = 0
    /\ _detect_blink (repeat l (length frames)) = Some false.
Proof.
  intros self frames l Hcount Hsame Hl.
  pose proof (movement_variance_static l (length frames)) as Hmove.
  pose proof (_detect_blink_static l (length frames) Hl) as Hblink.
  split; [|split; assumption].
  unfold check_liveness.
  apply Nat.ltb_ge in Hcount. rewrite Hcount.
  rewrite (extract_all_static self frames l Hsame), Hblink, Hmove.
  rewrite Rgtb_zero by (unfold Config.LIVENESS_MOVEMENT_THRESHOLD; lra).
  rewrite Rmult_0_l. reflexivity.
Qed.

Lemma C9_witness :
  check_liveness still_mesh [pixel_frame; pixel_frame; pixel_frame]
  = Some (false, 0, "Static image detected (no movement)")
  /\ _calculate_movement_variance (repeat still_landmarks 3) = 0
  /\ _detect_blink (repeat still_landmarks 3) = Some false.
Proof.
  apply (C9_static_replay_is_rejected still_mesh
           [pixel_frame; pixel_frame; pixel_frame] still_landmarks).
  - unfold Config.LIVENESS_FRAMES_COUNT. cbn. lia.
  - intros frame [<-|[<-|[<-|[]]]]; reflexivity.
  - unfold still_landmarks. rewrite repeat_length. lia.
Defined.

End LivenessFacts.

(* ================================================================== *)
(** * More about the matcher *)
(* ================================================================== *)

Module MatcherMore.

Local Open Scope R_scope.
Local Open Scope string_scope.
Local Open Scope list_scope.
Import Np NpFacts Matcher MatcherFacts Samples.

Lemma dot_comm : forall a b, dot a b = dot b a.
Proof.
  induction a as [|x a IH]; intros [|y b]; cbn; try reflexivity.
  rewrite IH. ring.
Qed.

Lemma cosine_sym : forall x y, cosine x y = cosine y x.
Proof. intros x y. unfold cosine. apply dot_comm. Qed.

Lemma calculate_similarity_ok :
  forall a b,
    length a = length b -> length a <> 0%nat ->
    calculate_similarity a b = Some (cosine a b).
Proof.
  intros a b Hl Hn. unfold calculate_similarity.
  rewrite cosine_similarity_ok; [reflexivity|exact Hn|].
  cbn. rewrite Hl, Nat.eqb_refl. reflexivity.
Qed.

Lemma calculate_similarity_none :
  forall a b,
    length a <> length b \/ length a = 0%nat ->
    calculate_similarity a b = None.
Proof.
  intros a b H. unfold calculate_similarity, cosine_similarity.
  destruct (Nat.eqb (length a) 0) eqn:E; [reflexivity|].
  apply Nat.eqb_neq in E. destruct H as [H|H]; [|contradiction].
  cbn [same_dim forallb andb].
  replace (Nat.eqb (length b) (length a)) with false; [reflexivity|].
  symmetry. apply Nat.eqb_neq. congruence.
Qed.

(** X1.  [calculate_similarity] does not depend on the order of its two
    arguments: exchanged, they give the same score, and the call raises
    for the one order exactly when it raises for the other. *)
Theorem X1_similarity_is_symmetric :
  forall a b, calculate_similarity a b = calculate_similarity b a.
Proof.
  intros a b.
  destruct (Nat.eq_dec (length a) (length b)) as [Hl|Hl].
  - destruct (Nat.eq_dec (length a) 0) as [Hz|Hz].
    + rewrite !calculate_similarity_none; [reflexivity|right|right];
        congruence.
    + rewrite !calculate_similarity_ok; try congruence.
      f_equal. apply cosine_sym.
  - rewrite !calculate_similarity_none; [reflexivity|left|left]; congruence.
Qed.

(** What a search over a non-empty store returns, in one formula. *)
Lemma match_1_to_n_some :
  forall thr q (db : list Candidate) t0 t1 r,
    db <> [] ->
    match_1_to_n thr q db t0 t1 = Some r ->
    exists i,
      is_first_max (map (cosine q) (map cand_embedding db)) i
      /\ same_dim q (map cand_embedding db) = true
      /\ r = if Rge_dec (nth i (map (cosine q) (map cand_embedding db)) 0) thr
             then (nth_error (map cand_id db) i, nth_error (map cand_name db) i,
                   nth i (map (cosine q) (map cand_embedding db)) 0,
                   (t1 - t0) * 1000)
             else (None, None,
                   nth i (map (cosine q) (map cand_embedding db)) 0,
                   (t1 - t0) * 1000).
Proof.
  intros thr q db t0 t1 r Hne H.
  destruct (cosine_similarity q (map cand_embedding db)) as [sims|] eqn:Hs.
  2:{ unfold match_1_to_n in H. destruct db; [congruence|].
      cbn [length Nat.eqb] in H. rewrite Hs in H. discriminate. }
  destruct (cosine_similarity_some _ _ _ Hs) as (Hsims & Hd & _).
  assert (Hsne : sims <> []).
  { rewrite Hsims. destruct db; [congruence|]. cbn. discriminate. }
  destruct (argmax_nonempty sims Hsne) as [i Hi].
  rewrite (match_1_to_n_step thr q db t0 t1 sims i Hne Hs Hi) in H.
  exists i. rewrite <- Hsims. split; [apply argmax_is_first_max, Hi|].
  split; [exact Hd|].
  destruct (Rge_dec (nth i sims 0) thr); injection H as <-; reflexivity.
Qed.

Lemma matched_identity_enrolled :
  forall thr q (db : list Candidate) t0 t1 sid name s t,
    match_1_to_n thr q db t0 t1 = Some (Some sid, name, s, t) ->
    exists i nm e,
      nth_error db i = Some (sid, nm, e)
      /\ name = Some nm
      /\ s = cosine q e
      /\ thr <= s
      /\ (forall c, In c db -> cosine q (cand_embedding c) <= s).
Proof.
  intros thr q db t0 t1 sid name s t H.
  assert (Hne : db <> []).
  { intro E. subst db. cbn in H. discriminate. }
  destruct (match_1_to_n_some thr q db t0 t1 _ Hne H) as (i & Hfm & Hd & Hr).
  set (sims := map (cosine q) (map cand_embedding db)) in *.
  destruct (Rge_dec (nth i sims 0) thr) as [G|NG]; [|discriminate].
  injection Hr as Hid Hname Hs _.
  rewrite nth_error_map in Hid. rewrite nth_error_map in Hname.
  destruct (nth_error db i) as [[[sid' nm] e]|] eqn:Ei; [|discriminate].
  cbn in Hid, Hname. injection Hid as ->.
  assert (Hval : nth i sims 0 = cosine q e).
  { apply nth_error_nth. unfold sims. rewrite !nth_error_map, Ei. reflexivity. }
  exists i, nm, e. repeat split.
  - exact Ei.
  - exact Hname.
  - rewrite Hs. exact Hval.
  - rewrite Hs. lra.
  - intros c Hc. rewrite Hs.
    destruct (In_nth _ _ c Hc) as (j & Hj & Hjc).
    destruct Hfm as (_ & Hmax & _).
    assert (Hj' : (j < length sims)%nat)
      by (unfold sims; rewrite !length_map; exact Hj).
    specialize (Hmax j Hj').
    replace (nth j sims 0) with (cosine q (cand_embedding c)) in Hmax;
      [exact Hmax|].
    symmetry. apply nth_error_nth. unfold sims.
    rewrite !nth_error_map.
    rewrite (nth_error_nth' db c Hj), Hjc. reflexivity.
Qed.

(** X2.  An identity returned by [match_1_to_n] is always one of the
    enrolled candidates, returned with its own name; the score is that
    candidate's cosine similarity with the query, it reaches the
    threshold, and no candidate scores higher. *)
Theorem X2_matched_identity_is_enrolled :
  forall thr q (db : list Candidate) t0 t1 sid name s t,
    match_1_to_n thr q db t0 t1 = Some (Some sid, name, s, t) ->
    exists i nm e,
      nth_error db i = Some (sid, nm, e)
      /\ name = Some nm
      /\ s = cosine q e
      /\ thr <= s
      /\ (forall c, In c db -> cosine q (cand_embedding c) <= s).
Proof. exact matched_identity_enrolled. Qed.

Lemma X2_witness :
  exists i nm e,
    nth_error twins i = Some ("S001", nm, e)
    /\ Some "Asha" = Some nm
    /\ 1 = cosine e1 e
    /\ Config.COSINE_SIMILARITY_THRESHOLD <= 1
    /\ (forall c, In c twins -> cosine e1 (cand_embedding c) <= 1).
Proof.
  apply (X2_matched_identity_is_enrolled Config.COSINE_SIMILARITY_THRESHOLD
           e1 twins 0 0 "S001" (Some "Asha") 1 ((0 - 0) * 1000)).
  apply (match_at_first_max Config.COSINE_SIMILARITY_THRESHOLD e1 twins 0 0
           [1; 1; 0] 0 "S001" "Asha" e1 twins_similarities twins_first_max).
  - cbn. apply threshold_below_one.
  - reflexivity.
Defined.

(** X3.  Lowering the threshold never changes an accepted match: what the
    matcher returns with an identity at one threshold it returns
    unchanged at every lower threshold. *)
Theorem X3_lower_threshold_keeps_match :
  forall thr thr' q (db : list Candidate) t0 t1 sid name s t,
    thr' <= thr ->
    match_1_to_n thr q db t0 t1 = Some (Some sid, name, s, t) ->
    match_1_to_n thr' q db t0 t1 = Some (Some sid, name, s, t).
Proof.
  intros thr thr' q db t0 t1 sid name s t Hle H.
  assert (Hne : db <> []).
  { intro E. subst db. cbn in H. discriminate. }
  destruct (match_1_to_n_some thr q db t0 t1 _ Hne H) as (i & Hfm & Hd & Hr).
  set (sims := map (cosine q) (map cand_embedding db)) in *.
  destruct (Rge_dec (nth i sims 0) thr) as [G|NG]; [|discriminate].
  assert (Hs : cosine_similarity q (map cand_embedding db) = Some sims).
  { apply cosine_similarity_ok; [|exact Hd].
    intro E. unfold match_1_to_n in H. destruct db; [congruence|].
    cbn [length Nat.eqb] in H. unfold cosine_similarity in H.
    rewrite E in H. cbn in H. discriminate. }
  rewrite (match_1_to_n_step thr' q db t0 t1 sims i Hne Hs
             (first_max_is_argmax sims i Hfm)).
  destruct (Rge_dec (nth i sims 0) thr') as [_|N]; [|lra].
  rewrite Hr. reflexivity.
Qed.

Lemma X3_witness :
  match_1_to_n 0.5 e1 twins 0 0
  = Some (Some "S001", Some "Asha", 1, (0 - 0) * 1000).
Proof.
  apply (X3_lower_threshold_keeps_match Config.COSINE_SIMILARITY_THRESHOLD
           0.5 e1 twins 0 0).
  - unfold Config.COSINE_SIMILARITY_THRESHOLD. lra.
  - apply (match_at_first_max Config.COSINE_SIMILARITY_THRESHOLD e1 twins 0 0
             [1; 1; 0] 0 "S001" "Asha" e1 twins_similarities twins_first_max).
    + cbn. apply threshold_below_one.
    + reflexivity.
Defined.

End MatcherMore.

(* ================================================================== *)
(** * More about the embedder *)
(* ================================================================== *)

Module EmbedderMore.

Local Open Scope R_scope.
Local Open Scope list_scope.
Import Np NpFacts Embedder EmbedderFacts Samples.

(** X4.  [generate_embedding] returns [None] in exactly four situations:
    no model is loaded ([is_ready] is false), the crop is [None], the
    crop has no element, or preprocessing and inference raise. *)
Theorem X4_embedding_failure_cases :
  forall self face_image,
    generate_embedding self face_image = None
    <-> (is_ready self = false
         \/ face_image = None
         \/ exists img,
              face_image = Some img
              /\ (Cv.size img = 0%Z
                  \/ exists run, session self = Some run /\ run img = None)).
Proof.
  intros self face_image. unfold generate_embedding, is_ready.
  destruct (session self) as [run|]; [|split; auto].
  destruct face_image as [img|]; [|split; auto].
  destruct (Z.eqb (Cv.size img) 0) eqn:E.
  - apply Z.eqb_eq in E. split; [|reflexivity].
    intros _. right. right. exists img. auto.
  - apply Z.eqb_neq in E. destruct (run img) as [raw|] eqn:R.
    + split; [discriminate|].
      intros [H|[H|(img' & Hi & [H|(run' & Hr & H)])]]; try discriminate.
      * injection Hi as <-. contradiction.
      * injection Hi as <-. injection Hr as <-. congruence.
    + split; [|reflexivity]. intros _. right. right. exists img.
      split; [reflexivity|]. right. exists run. auto.
Qed.

Lemma _normalize_embedding_pad_right :
  forall v n,
    _normalize_embedding (pad_right v n)
    = pad_right (_normalize_embedding v) n.
Proof.
  intros v n. unfold _normalize_embedding. rewrite norm_pad_right.
  destruct (Req_dec_T (norm v) 0) as [Z|NZ]; [reflexivity|].
  unfold pad_right. rewrite map_app, map_repeat. do 2 f_equal.
  unfold Rdiv. ring.
Qed.

(** X7.  The zeros that pad a short model output stay zeros: when the
    model gives fewer than 512 components, every component of the
    signature from the length of the output on is exactly 0. *)
Theorem X7_padding_stays_zero :
  forall self run img raw,
    session self = Some run ->
    Cv.size img <> 0%Z ->
    run img = Some raw ->
    (length raw < Config.EMBEDDING_DIM)%nat ->
    exists e,
      generate_embedding self (Some img) = Some e
      /\ length e = Config.EMBEDDING_DIM
      /\ skipn (length raw) e
         = repeat 0 (Config.EMBEDDING_DIM - length raw).
Proof.
  intros self run img raw Hs Hsz Hr Hlen.
  rewrite (generate_embedding_run self run img raw Hs Hsz Hr).
  eexists. split; [reflexivity|]. split.
  - rewrite _normalize_embedding_length. apply fit_dimension_length.
  - unfold fit_dimension.
    destruct (Nat.eqb (length raw) Config.EMBEDDING_DIM) eqn:E.
    + apply Nat.eqb_eq in E. lia.
    + apply Nat.ltb_lt in Hlen. rewrite Hlen.
      rewrite _normalize_embedding_pad_right. unfold pad_right.
      rewrite skipn_app, <- (_normalize_embedding_length raw), skipn_all.
      rewrite Nat.sub_diag. reflexivity.
Qed.

Lemma X7_witness :
  exists e,
    generate_embedding short_embedder (Some pixel_frame) = Some e
    /\ length e = Config.EMBEDDING_DIM
    /\ skipn (length [3; 4]) e
       = repeat 0 (Config.EMBEDDING_DIM - length [3; 4]).
Proof.
  apply (X7_padding_stays_zero short_embedder
           (fun _ => Some [3; 4]) pixel_frame [3; 4]).
  - reflexivity.
  - discriminate.
  - reflexivity.
  - unfold Config.EMBEDDING_DIM. cbn. lia.
Defined.

End EmbedderMore.

(* ================================================================== *)
(** * More about the detector *)
(* ================================================================== *)

Module DetectorMore.

Local Open Scope Z_scope.
Import Detector DetectorFacts Samples.

(** X8.  The box reported by [detect_single_face] never leaves the
    frame: it starts at non-negative coordinates and ends at or before
    the right and bottom borders.  When its width and height are not
    negative, the crop has exactly that height and width, and its pixel
    [(r, c)] is the frame's pixel [(y + r, x + c)]. *)
Theorem X8_box_within_frame :
  forall image detection,
    let crop := fst (crop_detection image detection) in
    let '(x, y, box_w, box_h) := bbox (snd (crop_detection image detection)) in
    0 <= x /\ 0 <= y
    /\ x + box_w <= Cv.shape_w image
    /\ y + box_h <= Cv.shape_h image
    /\ (0 <= box_w -> 0 <= box_h ->
        Cv.shape_h crop = box_h /\ Cv.shape_w crop = box_w
        /\ forall r c, Cv.at_ crop r c = Cv.at_ image (y + r) (x + c)).
Proof.
  intros image detection. unfold crop_detection. cbn zeta.
  cbn [fst snd bbox].
  set (w := Cv.shape_w image). set (h := Cv.shape_h image).
  set (x0 := int_of (xmin (relative_bounding_box detection) * inject_Z w)).
  set (y0 := int_of (ymin (relative_bounding_box detection) * inject_Z h)).
  set (w0 := int_of (width (relative_bounding_box detection) * inject_Z w)).
  set (h0 := int_of (height (relative_bounding_box detection) * inject_Z h)).
  set (x := Z.max 0 (x0 - Config.FACE_CROP_PADDING)).
  set (y := Z.max 0 (y0 - Config.FACE_CROP_PADDING)).
  set (box_w := Z.min (w - x) (w0 + 2 * Config.FACE_CROP_PADDING)).
  set (box_h := Z.min (h - y) (h0 + 2 * Config.FACE_CROP_PADDING)).
  assert (Hx : 0 <= x) by (unfold x; lia).
  assert (Hy : 0 <= y) by (unfold y; lia).
  assert (Hw : x + box_w <= w) by (unfold box_w; lia).
  assert (Hh : y + box_h <= h) by (unfold box_h; lia).
  repeat split; try assumption.
  - cbn [Cv.crop Cv.shape_h]. fold h.
    apply (slice_exact h y box_h); assumption.
  - cbn [Cv.crop Cv.shape_w]. fold w.
    apply (slice_exact w x box_w); assumption.
  - intros r c. cbn [Cv.crop Cv.at_]. fold h. fold w.
    destruct (slice_exact h y box_h Hy H0 Hh) as [-> _].
    destruct (slice_exact w x box_w Hx H Hw) as [-> _].
    reflexivity.
Qed.

(** X9.  When the detected box keeps at least the padding of 20 pixels
    from every border of the frame, the reported box is the detected box
    grown by exactly 20 pixels on each of its four sides. *)
Theorem X9_padding_is_symmetric_inside :
  forall image detection x0 y0 w0 h0,
    raw_box image detection = (x0, y0, w0, h0) ->
    Config.FACE_CROP_PADDING <= x0 ->
    Config.FACE_CROP_PADDING <= y0 ->
    x0 + w0 + Config.FACE_CROP_PADDING <= Cv.shape_w image ->
    y0 + h0 + Config.FACE_CROP_PADDING <= Cv.shape_h image ->
    bbox (snd (crop_detection image detection))
    = (x0 - 20, y0 - 20, w0 + 40, h0 + 40).
Proof.
  intros image detection x0 y0 w0 h0 Hraw Hx Hy Hw Hh.
  unfold raw_box in Hraw. cbn zeta in Hraw. injection Hraw as Ex Ey Ew Eh.
  unfold crop_detection. cbn zeta. cbn [snd bbox].
  rewrite Ex, Ey, Ew, Eh.
  unfold Config.FACE_CROP_PADDING in *.
  f_equal; [f_equal; [f_equal|]|]; lia.
Qed.

Lemma X9_witness :
  bbox (snd (crop_detection wide_frame inner_face))
  = (30 - 20, 40 - 20, 20 + 40, 10 + 40).
Proof.
  apply (X9_padding_is_symmetric_inside wide_frame inner_face 30 40 20 10).
  - reflexivity.
  - unfold Config.FACE_CROP_PADDING. lia.
  - unfold Config.FACE_CROP_PADDING. lia.
  - unfold Config.FACE_CROP_PADDING. cbn. lia.
  - unfold Config.FACE_CROP_PADDING. cbn. lia.
Defined.

End DetectorMore.

(* ================================================================== *)
(** * More about the liveness check *)
(* ================================================================== *)

Module LivenessMore.

Local Open Scope R_scope.
Local Open Scope string_scope.
Local Open Scope list_scope.
Import Np NpFacts Liveness LivenessFacts Samples.

Lemma call_extract_landmarks_none :
  forall self frame,
    Cv.size frame <> 0%Z ->
    _extract_landmarks self frame = None ->
    call_extract_landmarks self frame = Some None.
Proof.
  intros self frame Hsize H.
  unfold _extract_landmarks, call_extract_landmarks in *.
  unfold Cv.cvtColor in *. apply Z.eqb_neq in Hsize. rewrite Hsize in *.
  destruct (face_mesh self _); [discriminate|reflexivity].
Qed.

Lemma call_extract_landmarks_returns :
  forall self frame,
    Cv.size frame <> 0%Z ->
    exists answer, call_extract_landmarks self frame = Some answer.
Proof.
  intros self frame Hsize. unfold call_extract_landmarks, Cv.cvtColor.
  apply Z.eqb_neq in Hsize. rewrite Hsize. eexists. reflexivity.
Qed.

Lemma extract_all_missing :
  forall self frames frame,
    (forall f, In f frames -> Cv.size f <> 0%Z) ->
    In frame frames ->
    _extract_landmarks self frame = None ->
    extract_all self frames = Some None.
Proof.
  intros self frames frame. induction frames as [|f frames IH];
    intros Hsize Hin Hnone.
  - contradiction.
  - cbn [extract_all]. destruct Hin as [->|Hin].
    + rewrite (call_extract_landmarks_none self frame
                 (Hsize frame (or_introl eq_refl)) Hnone).
      reflexivity.
    + destruct (call_extract_landmarks_returns self f
                  (Hsize f (or_introl eq_refl))) as [[landmarks|] ->];
        [|reflexivity].
      rewrite (IH (fun g Hg => Hsize g (or_intror Hg)) Hin Hnone).
      reflexivity.
Qed.

(** X10.  With enough frames, all of them with pixels, one frame in which
    the face mesh finds no landmarks is enough for [check_liveness] to
    answer not live, with confidence 0 and the reason that landmarks
    were not detected, whatever the other frames show. *)
Theorem X10_missing_landmarks_reject :
  forall self frames frame,
    (forall f, In f frames -> Cv.size f <> 0%Z) ->
    (Config.LIVENESS_FRAMES_COUNT <= length frames)%nat ->
    In frame frames ->
    _extract_landmarks self frame = None ->
    check_liveness self frames = Some (false, 0, "Face landmarks not detected").
Proof.
  intros self frames frame Hsize Hcount Hin Hnone. unfold check_liveness.
  apply Nat.ltb_ge in Hcount. rewrite Hcount.
  rewrite (extract_all_missing self frames frame Hsize Hin Hnone).
  reflexivity.
Qed.

(** A frame without pixels among enough frames makes the call raise, if
    no earlier frame has ended it. *)
Lemma check_liveness_empty_first_frame :
  forall self frame frames,
    Cv.size frame = 0%Z ->
    (Config.LIVENESS_FRAMES_COUNT <= length (frame :: frames))%nat ->
    check_liveness self (frame :: frames) = None.
Proof.
  intros self frame frames Hsize Hcount. unfold check_liveness.
  apply Nat.ltb_ge in Hcount. rewrite Hcount.
  cbn [extract_all]. unfold call_extract_landmarks.
  rewrite (DetectorFacts.cvtColor_none frame Hsize). reflexivity.
Qed.

Lemma X10_witness :
  check_liveness row_mesh [pixel_frame; frame_rows 4; pixel_frame]
  = Some (false, 0, "Face landmarks not detected").
Proof.
  apply (X10_missing_landmarks_reject row_mesh
           [pixel_frame; frame_rows 4; pixel_frame] (frame_rows 4)).
  - intros f [<-|[<-|[<-|[]]]]; discriminate.
  - unfold Config.LIVENESS_FRAMES_COUNT. cbn. lia.
  - right. left. reflexivity.
  - reflexivity.
Defined.

Lemma Rgtb_true : forall a b, Rgtb a b = true -> a > b.
Proof.
  intros a b H. unfold Rgtb in H.
  destruct (Rgt_dec a b); [assumption|discriminate].
Qed.

Lemma Rgtb_false : forall a b, Rgtb a b = false -> a <= b.
Proof.
  intros a b H. unfold Rgtb in H.
  destruct (Rgt_dec a b); [discriminate|lra].
Qed.

(** X11.  Whatever [check_liveness] returns, the confidence is at most 1,
    and it exceeds 0.05 exactly when the verdict is live. *)
Theorem X11_confidence_tells_verdict :
  forall self frames is_live confidence reason,
    check_liveness self frames = Some (is_live, confidence, reason) ->
    confidence <= 1 /\ (is_live = true <-> 0.05 < confidence).
Proof.
  intros self frames is_live confidence reason H. unfold check_liveness in H.
  destruct (Nat.ltb (length frames) Config.LIVENESS_FRAMES_COUNT).
  { injection H as <- <- _. split; [lra|]. split; [discriminate|lra]. }
  destruct (extract_all self frames) as [[seq|]|]; [| |discriminate].
  2:{ injection H as <- <- _. split; [lra|]. split; [discriminate|lra]. }
  destruct (_detect_blink seq) as [blink|]; [|discriminate].
  unfold Config.LIVENESS_MOVEMENT_THRESHOLD in H.
  destruct (Rgtb (_calculate_movement_variance seq) 0.0005) eqn:M.
  - apply Rgtb_true in M. injection H as <- <- _. split.
    + apply Rmin_r.
    + split; [intros _|reflexivity].
      apply Rmin_glb_lt; lra.
  - apply Rgtb_false in M. destruct blink.
    + injection H as <- <- _. split; [lra|]. split; [lra|reflexivity].
    + injection H as <- <- _. split; [lra|]. split; [discriminate|lra].
Qed.

(** ** A face that moves between the frames *)

Lemma columns_cons :
  forall a b c ra rb rc,
    columns [a :: ra; b :: rb; c :: rc]
    = [a; b; c] :: columns [ra; rb; rc].
Proof.
  intros a b c ra rb rc. unfold columns. cbn [length].
  rewrite <- cons_seq, <- seq_shift. cbn [map]. rewrite map_map.
  reflexivity.
Qed.

Lemma var_moved :
  forall x, var [x + 1; x + 2; x + 1] = 2 / 9.
Proof. intro x. unfold var, mean. cbn. field. Qed.

Lemma var_three_zeros : var [0; 0; 0] = 0.
Proof. apply (var_repeat 0 3). Qed.

Lemma sliding_variances :
  forall indices : list nat,
    map var
      (columns
         (map flatten
            [map (fun i => (IZR (Z.of_nat i) + 1, 0, 0)) indices;
             map (fun i => (IZR (Z.of_nat i) + 2, 0, 0)) indices;
             map (fun i => (IZR (Z.of_nat i) + 1, 0, 0)) indices]))
    = flat_map (fun _ => [2 / 9; 0; 0]) indices.
Proof.
  induction indices as [|i indices IH]; [reflexivity|].
  cbn [map flatten flat_map app] in IH |- *.
  rewrite !columns_cons. cbn [map].
  rewrite var_moved, var_three_zeros. do 3 f_equal. exact IH.
Qed.

Lemma sum_flat_map_triple :
  forall (A : Type) a b c (l : list A),
    sum (flat_map (fun _ => [a; b; c]) l) = INR (length l) * (a + b + c)
    /\ length (flat_map (fun _ => [a; b; c]) l) = (3 * length l)%nat.
Proof.
  intros A a b c l. induction l as [|x l [IHs IHl]].
  - cbn. split; [ring|reflexivity].
  - cbn [flat_map app sum length]. rewrite IHs, IHl. split; [|lia].
    destruct l; cbn [length INR]; [cbn; ring|]. ring.
Qed.

Lemma sliding_movement :
  _calculate_movement_variance
    [sliding_landmarks 1; sliding_landmarks 2; sliding_landmarks 1]
  = 2 / 27.
Proof.
  unfold _calculate_movement_variance, sliding_landmarks.
  rewrite sliding_variances. unfold mean.
  destruct (sum_flat_map_triple nat (2 / 9) 0 0 (seq 0 478)) as [-> ->].
  rewrite length_seq, mult_INR.
  replace (INR 3) with 3 by (cbn; ring).
  field. apply not_0_INR. discriminate.
Qed.

Lemma ear_values_in_range :
  forall landmarks_sequence : list Landmarks,
    (forall l : Landmarks, In l landmarks_sequence -> (387 < length l)%nat) ->
    exists vs, ear_values landmarks_sequence = Some vs.
Proof.
  induction landmarks_sequence as [|l rest IH]; intro H.
  - exists []. reflexivity.
  - destruct IH as [vs Hvs]; [intros l' Hl'; apply H; right; exact Hl'|].
    assert (Hl : (387 < length l)%nat) by (apply H; left; reflexivity).
    destruct (_calculate_ear_in_range l LEFT_EYE_INDICES eq_refl)
      as [left_ear Hleft].
    { intros i Hi. apply eye_indices_in_range; auto. }
    destruct (_calculate_ear_in_range l RIGHT_EYE_INDICES eq_refl)
      as [right_ear Hright].
    { intros i Hi. apply eye_indices_in_range; auto. }
    cbn [ear_values]. rewrite Hleft, Hright, Hvs. eexists. reflexivity.
Qed.

Lemma sliding_run :
  check_liveness sliding_mesh [frame_rows 1; frame_rows 2; frame_rows 1]
  = Some (true, 1, "Natural movement detected").
Proof.
  unfold check_liveness. cbn [length Nat.ltb Nat.leb Config.LIVENESS_FRAMES_COUNT].
  change (extract_all sliding_mesh [frame_rows 1; frame_rows 2; frame_rows 1])
    with (Some (Some [sliding_landmarks 1; sliding_landmarks 2;
                      sliding_landmarks 1])).
  cbv beta iota zeta. rewrite sliding_movement.
  destruct (ear_values_in_range
              [sliding_landmarks 1; sliding_landmarks 2; sliding_landmarks 1])
    as [vs Hvs].
  { intros l [<-|[<-|[<-|[]]]]; unfold sliding_landmarks;
      rewrite length_map, length_seq; lia. }
  unfold _detect_blink. rewrite Hvs.
  unfold Rgtb, Config.LIVENESS_MOVEMENT_THRESHOLD.
  destruct (Rgt_dec (2 / 27) 0.0005) as [_|N]; [|exfalso; apply N; lra].
  rewrite Rmin_right by lra. reflexivity.
Qed.

Lemma X11_witness :
  1 <= 1 /\ (true = true <-> 0.05 < 1).
Proof.
  apply (X11_confidence_tells_verdict sliding_mesh
           [frame_rows 1; frame_rows 2; frame_rows 1] true 1
           "Natural movement detected").
  exact sliding_run.
Defined.




End LivenessMore.

(* ================================================================== *)
(** * More about the database *)
(* ================================================================== *)

Module DatabaseMore.

Local Open Scope string_scope.
Local Open Scope list_scope.
Import Database DatabaseFacts Samples.

(** ** Enrolment *)

Lemma filter_other_ids_NoDup :
  forall sid (l : list Matcher.Candidate),
    NoDup (map Matcher.cand_id l) ->
    NoDup (map Matcher.cand_id
             (filter (fun c => negb (String.eqb (Matcher.cand_id c) sid)) l)).
Proof.
  intros sid l. induction l as [|c l IH]; intro H; cbn; [constructor|].
  inversion H as [|x xs Hnotin Hnd]; subst.
  destruct (negb (String.eqb (Matcher.cand_id c) sid)); [|apply IH, Hnd].
  cbn. constructor; [|apply IH, Hnd].
  intro Hin. apply Hnotin. apply in_map_iff in Hin.
  destruct Hin as (c' & Hc' & Hin'). apply filter_In in Hin'.
  apply in_map_iff. exists c'. tauto.
Qed.

Lemma filter_other_ids_not_in :
  forall sid (l : list Matcher.Candidate),
    ~ In sid (map Matcher.cand_id
                (filter (fun c => negb (String.eqb (Matcher.cand_id c) sid)) l)).
Proof.
  intros sid l Hin. apply in_map_iff in Hin.
  destruct Hin as (c & Hc & Hin). apply filter_In in Hin.
  destruct Hin as (_ & Hneq). rewrite Hc, String.eqb_refl in Hneq.
  discriminate.
Qed.

Lemma NoDup_snoc :
  forall (A : Type) (l : list A) x, NoDup l -> ~ In x l -> NoDup (l ++ [x]).
Proof.
  intros A l x Hnd Hx. induction Hnd as [|a l Ha Hnd IH]; cbn.
  - constructor; [intros []|constructor].
  - constructor.
    + intro Hin. apply in_app_or in Hin. destruct Hin as [Hin|[<-|[]]].
      * contradiction.
      * apply Hx. left. reflexivity.
    + apply IH. intro Hin. apply Hx. right. exact Hin.
Qed.

(** X13.  [insert_student] always succeeds and replaces rather than
    appends: afterwards the store holds the new entry, every old entry
    with another id, and nothing else; the attendance log is untouched;
    and ids that were unique stay unique. *)
Theorem X13_insert_student_replaces :
  forall db sid name embedding,
    let db' := fst (insert_student db sid name embedding) in
    snd (insert_student db sid name embedding) = true
    /\ (forall c, In c (get_all_embeddings db')
                  <-> c = (sid, name, embedding)
                      \/ (In c (get_all_embeddings db)
                          /\ Matcher.cand_id c <> sid))
    /\ attendance_logs db' = attendance_logs db
    /\ (NoDup (map Matcher.cand_id (students db)) ->
        NoDup (map Matcher.cand_id (students db'))).
Proof.
  intros db sid name embedding. cbn zeta. unfold insert_student.
  cbn [fst snd get_all_embeddings students attendance_logs].
  split; [reflexivity|]. split; [|split; [reflexivity|]].
  - intro c. rewrite in_app_iff, filter_In. cbn [In]. split.
    + intros [(Hin & Hneq)|[<-|[]]]; [right|left; reflexivity].
      split; [exact Hin|]. intro E. rewrite E, String.eqb_refl in Hneq.
      discriminate.
    + intros [->|(Hin & Hneq)]; [right; left; reflexivity|left].
      split; [exact Hin|]. apply String.eqb_neq in Hneq. rewrite Hneq.
      reflexivity.
  - intro Hnd. rewrite map_app. cbn [map]. apply NoDup_snoc.
    + apply filter_other_ids_NoDup, Hnd.
    + apply filter_other_ids_not_in.
Qed.

Lemma filter_other_ids_length :
  forall sid (l : list Matcher.Candidate),
    NoDup (map Matcher.cand_id l) ->
    length (filter (fun c => negb (String.eqb (Matcher.cand_id c) sid)) l)
    = if existsb (fun c => String.eqb (Matcher.cand_id c) sid) l
      then Nat.pred (length l) else length l.
Proof.
  intros sid l. induction l as [|c l IH]; intro H; cbn; [reflexivity|].
  inversion H as [|x xs Hnotin Hnd]; subst. specialize (IH Hnd).
  destruct (String.eqb (Matcher.cand_id c) sid) eqn:E; cbn.
  - apply String.eqb_eq in E. rewrite IH.
    destruct (existsb (fun c0 => String.eqb (Matcher.cand_id c0) sid) l) eqn:X;
      [|reflexivity].
    exfalso. apply Hnotin. apply existsb_exists in X.
    destruct X as (c' & Hin & Hc'). apply String.eqb_eq in Hc'.
    apply in_map_iff. exists c'. split; [congruence|exact Hin].
  - rewrite IH.
    destruct (existsb (fun c0 => String.eqb (Matcher.cand_id c0) sid) l) eqn:X;
      [|reflexivity].
    destruct l; [discriminate|reflexivity].
Qed.

(** X14.  On a store with unique ids, enrolling a student whose id is
    already present leaves [get_student_count] as it was, and enrolling a
    new id raises it by one. *)
Theorem X14_student_count_after_insert :
  forall db sid name embedding,
    NoDup (map Matcher.cand_id (students db)) ->
    get_student_count (fst (insert_student db sid name embedding))
    = if existsb (fun c => String.eqb (Matcher.cand_id c) sid) (students db)
      then get_student_count db
      else S (get_student_count db).
Proof.
  intros db sid name embedding Hnd. unfold get_student_count, insert_student.
  cbn [fst students]. rewrite length_app, (filter_other_ids_length sid _ Hnd).
  cbn [length].
  destruct (existsb (fun c => String.eqb (Matcher.cand_id c) sid) (students db))
    eqn:X; [|lia].
  destruct (students db); [discriminate|cbn; lia].
Qed.

Lemma X14_witness :
  get_student_count (fst (insert_student enrolled_db "S001" "Asha B." e1))
  = if existsb (fun c => String.eqb (Matcher.cand_id c) "S001")
         (students enrolled_db)
    then get_student_count enrolled_db
    else S (get_student_count enrolled_db).
Proof.
  apply (X14_student_count_after_insert enrolled_db "S001" "Asha B." e1).
  cbn. constructor; [intros []|constructor].
Defined.

(** ** Statistics *)

Lemma filter_length_le :
  forall (A : Type) (f : A -> bool) (l : list A),
    (length (filter f l) <= length l)%nat.
Proof.
  intros A f l. induction l as [|x l IH]; cbn; [lia|].
  destruct (f x); cbn; lia.
Qed.

(** X15.  In the statistics of any log, successful and failed attempts
    add up to the total and neither is negative, the success rate lies
    between 0 and 100, and on an empty log the rate and the average
    processing time are 0: nothing is divided by a zero total. *)
Theorem X15_statistics_are_consistent :
  forall db,
    let stats := get_log_statistics db in
    (successful_attempts stats + failed_attempts stats
     = total_attempts stats)%Z
    /\ (0 <= successful_attempts stats)%Z
    /\ (0 <= failed_attempts stats)%Z
    /\ (0 <= success_rate stats <= 100)%R
    /\ (attendance_logs db = [] ->
        total_attempts stats = 0%Z
        /\ success_rate stats = 0%R
        /\ avg_processing_time_ms stats = 0%R).
Proof.
  intro db. cbn zeta. unfold get_log_statistics.
  cbn [total_attempts successful_attempts failed_attempts success_rate
       avg_processing_time_ms].
  pose proof (filter_length_le LogRow is_success (attendance_logs db)) as Hle.
  set (total := Z.of_nat (length (attendance_logs db))).
  set (success := Z.of_nat (length (filter is_success (attendance_logs db)))).
  assert (H0 : (0 <= success)%Z) by (unfold success; lia).
  assert (H1 : (success <= total)%Z) by (unfold success, total; lia).
  split; [lia|]. split; [exact H0|]. split; [lia|]. split.
  - destruct (Z.ltb_spec 0 total) as [Hpos|Hnpos]; [|lra].
    assert (Ht : (0 < IZR total)%R) by (apply IZR_lt; exact Hpos).
    assert (Hs0 : (0 <= IZR success)%R) by (apply IZR_le; exact H0).
    assert (Hs1 : (IZR success <= IZR total)%R) by (apply IZR_le; exact H1).
    assert (Hq : (0 <= IZR success / IZR total <= 1)%R).
    { split.
      - apply Rmult_le_pos; [exact Hs0|]. left. apply Rinv_0_lt_compat, Ht.
      - apply Rmult_le_reg_r with (IZR total); [exact Ht|].
        unfold Rdiv. rewrite Rmult_assoc, Rinv_l by lra. lra. }
    lra.
  - intro E. unfold total. rewrite E. cbn. repeat split; reflexivity.
Qed.

Lemma log_attendance_rows :
  forall db sid status score time now,
    status_check status = true ->
    attendance_logs (fst (log_attendance db sid status score time now))
    = attendance_logs db
      ++ [ {| row_student_id := sid;
              row_timestamp := now;
              row_status := status;
              row_similarity_score := score;
              row_processing_time_ms := time |} ].
Proof.
  intros db sid status score time now H. unfold log_attendance.
  rewrite H. reflexivity.
Qed.

(** X16.  Every [log_attendance] call with one of the two statuses of the
    schema raises the total of the statistics by one, and the number of
    successful attempts by one exactly when the status is SUCCESS. *)
Theorem X16_statistics_follow_the_log :
  forall db sid status score time now,
    status_check status = true ->
    let before := get_log_statistics db in
    let after :=
      get_log_statistics (fst (log_attendance db sid status score time now)) in
    (total_attempts after = total_attempts before + 1)%Z
    /\ (successful_attempts after
        = successful_attempts before
          + if String.eqb status "SUCCESS" then 1 else 0)%Z.
Proof.
  intros db sid status score time now H. cbn zeta.
  unfold get_log_statistics. cbn [total_attempts successful_attempts].
  rewrite (log_attendance_rows db sid status score time now H).
  rewrite filter_app, !length_app. cbn [filter length].
  unfold is_success at 2. cbn [row_status].
  destruct (String.eqb status "SUCCESS"); cbn [length]; lia.
Qed.

Lemma X16_witness :
  (total_attempts
     (get_log_statistics
        (fst (log_attendance morning_log None "FAILURE" (Some 0%R) 35%R 2000)))
   = total_attempts (get_log_statistics morning_log) + 1)%Z
  /\ (successful_attempts
        (get_log_statistics
           (fst (log_attendance morning_log None "FAILURE" (Some 0%R) 35%R 2000)))
      = successful_attempts (get_log_statistics morning_log)
        + if String.eqb "FAILURE" "SUCCESS" then 1 else 0)%Z.
Proof.
  apply (X16_statistics_follow_the_log morning_log None "FAILURE"
           (Some 0%R) 35%R 2000%Z).
  reflexivity.
Defined.

(** ** Today's attendance *)

Lemma check_attendance_today_counted :
  forall db sid now,
    check_attendance_today db sid now = true
    <-> In sid (flat_map (counted_today now) (attendance_logs db)).
Proof.
  intros db sid now. rewrite check_attendance_today_true, in_flat_map.
  split; intros (row & Hin & H); exists row; split; try exact Hin.
  - unfold marked_today, same_student in H. unfold counted_today.
    destruct (row_student_id row) as [s|]; [|discriminate].
    apply andb_prop in H. destruct H as (H & Hst).
    apply andb_prop in H. destruct H as (Hs & Hd).
    rewrite Hd, Hst. cbn. left. apply String.eqb_eq, Hs.
  - unfold counted_today in H. unfold marked_today, same_student.
    destruct (Z.eqb (sql_date (row_timestamp row)) (sql_date now)
              && String.eqb (row_status row) "SUCCESS") eqn:E;
      [|contradiction].
    apply andb_prop in E. destruct E as (Hd & Hst).
    destruct (row_student_id row) as [s|]; [|contradiction].
    destruct H as [->|[]]. rewrite String.eqb_refl, Hd, Hst. reflexivity.
Qed.

Lemma nodup_snoc_length :
  forall (l : list string) x,
    length (nodup string_dec (l ++ [x]))
    = if in_dec string_dec x l
      then length (nodup string_dec l)
      else S (length (nodup string_dec l)).
Proof.
  intros l x. induction l as [|a l IH]; [reflexivity|].
  cbn [app nodup].
  destruct (string_dec a x) as [->|Hax].
  - destruct (in_dec string_dec x (l ++ [x])) as [_|N].
    2:{ exfalso. apply N, in_or_app. right. left. reflexivity. }
    destruct (in_dec string_dec x (x :: l)) as [_|N].
    2:{ exfalso. apply N. left. reflexivity. }
    rewrite IH. destruct (in_dec string_dec x l); reflexivity.
  - assert (Hiff1 : In a (l ++ [x]) <-> In a l).
    { rewrite in_app_iff. cbn. split; [intros [H|[H|[]]]|]; auto.
      congruence. }
    assert (Hiff2 : In x (a :: l) <-> In x l).
    { cbn. split; [intros [H|H]|]; auto. congruence. }
    destruct (in_dec string_dec a (l ++ [x])) as [H1|H1];
      destruct (in_dec string_dec a l) as [H2|H2];
      try (exfalso; tauto);
      destruct (in_dec string_dec x (a :: l)) as [H3|H3];
      try (exfalso; tauto);
      cbn [length]; rewrite IH;
      destruct (in_dec string_dec x l); try (exfalso; tauto); reflexivity.
Qed.

Lemma counted_today_success :
  forall now sid ts score time,
    sql_date ts = sql_date now ->
    counted_today now
      {| row_student_id := Some sid;
         row_timestamp := ts;
         row_status := "SUCCESS";
         row_similarity_score := score;
         row_processing_time_ms := time |}
    = [sid].
Proof.
  intros now sid ts score time Hday. unfold counted_today.
  cbn [row_timestamp row_status row_student_id].
  rewrite Hday, Z.eqb_refl, String.eqb_refl. reflexivity.
Qed.

Lemma counted_today_failure :
  forall now who ts score time,
    counted_today now
      {| row_student_id := who;
         row_timestamp := ts;
         row_status := "FAILURE";
         row_similarity_score := score;
         row_processing_time_ms := time |}
    = [].
Proof.
  intros now who ts score time. unfold counted_today.
  cbn [row_timestamp row_status row_student_id].
  replace (String.eqb "FAILURE" "SUCCESS") with false by reflexivity.
  rewrite andb_false_r. reflexivity.
Qed.

(** X17.  [get_today_attendance_count] counts students, not attempts: a
    SUCCESS logged today for a student raises it by one only if
    [check_attendance_today] did not yet hold for that student, and a
    FAILURE never changes it. *)
Theorem X17_today_count_counts_students_once :
  forall db sid score time ts now,
    sql_date ts = sql_date now ->
    get_today_attendance_count
      (fst (log_attendance db (Some sid) "SUCCESS" score time ts)) now
    = (if check_attendance_today db sid now
       then get_today_attendance_count db now
       else S (get_today_attendance_count db now))
    /\ forall who,
         get_today_attendance_count
           (fst (log_attendance db who "FAILURE" score time ts)) now
         = get_today_attendance_count db now.
Proof.
  intros db sid score time ts now Hday. unfold get_today_attendance_count.
  split.
  - rewrite (log_attendance_rows db (Some sid) "SUCCESS" score time ts eq_refl).
    rewrite flat_map_app. cbn [flat_map].
    rewrite (counted_today_success now sid ts score time Hday), app_nil_r.
    rewrite nodup_snoc_length.
    destruct (check_attendance_today db sid now) eqn:C.
    + apply check_attendance_today_counted in C.
      destruct (in_dec string_dec sid _); [reflexivity|contradiction].
    + destruct (in_dec string_dec sid _) as [Hin|]; [|reflexivity].
      apply check_attendance_today_counted in Hin. congruence.
  - intro who.
    rewrite (log_attendance_rows db who "FAILURE" score time ts eq_refl).
    rewrite flat_map_app. cbn [flat_map].
    rewrite counted_today_failure, !app_nil_r. reflexivity.
Qed.

Lemma X17_witness :
  get_today_attendance_count
    (fst (log_attendance morning_log (Some "S001") "SUCCESS" (Some 1%R) 40%R 5000))
    6000
  = (if check_attendance_today morning_log "S001" 6000
     then get_today_attendance_count morning_log 6000
     else S (get_today_attendance_count morning_log 6000))
  /\ forall who,
       get_today_attendance_count
         (fst (log_attendance morning_log who "FAILURE" (Some 1%R) 40%R 5000))
         6000
       = get_today_attendance_count morning_log 6000.
Proof.
  apply (X17_today_count_counts_students_once morning_log "S001"
           (Some 1%R) 40%R 5000%Z 6000%Z).
  reflexivity.
Defined.

(** ** Listing the log *)





















(** X28.  Appending never turns the answer of [check_attendance_today]
    back to false: if the log holds a [SUCCESS] row of a student whose
    stored date is the date SQLite reads for ['now'] at the instant of
    a query, the query answers true whatever rows later calls of
    [log_attendance] have appended. *)
Theorem X28_appends_never_unmark :
  forall db student_id row calls now,
    In row (attendance_logs db) ->
    row_student_id row = Some student_id ->
    row_status row = "SUCCESS" ->
    sql_date (row_timestamp row) = sql_date now ->
    check_attendance_today (log_all db calls) student_id now = true.
Proof.
  intros db student_id row calls now Hin Hid Hst Hday.
  apply check_attendance_today_stable, check_attendance_today_true.
  exists row. split; [exact Hin|].
  unfold marked_today, same_student. rewrite Hid, Hst, Hday.
  rewrite String.eqb_refl, Z.eqb_refl. reflexivity.
Qed.

Lemma X28_witness :
  check_attendance_today (log_all morning_log later_calls) "S001" 86399 = true.
Proof.
  apply (X28_appends_never_unmark morning_log "S001"
           {| row_student_id := Some "S001";
              row_timestamp := 1000;
              row_status := "SUCCESS";
              row_similarity_score := Some 1%R;
              row_processing_time_ms := 40%R |}
           later_calls 86399).
  - left. reflexivity.
  - reflexivity.
  - reflexivity.
  - reflexivity.
Defined.

End DatabaseMore.

(* ================================================================== *)
(** * Facts about the users table and the login *)
(* ================================================================== *)

Module UsersFacts.

Local Open Scope Z_scope.
Local Open Scope string_scope.
Local Open Scope list_scope.
Import Users Samples.

Lemma find_none_existsb :
  forall (A : Type) (f : A -> bool) (l : list A),
    existsb f l = false -> find f l = None.
Proof.
  intros A f l. induction l as [|x l IH]; cbn; [reflexivity|].
  destruct (f x); cbn; [discriminate|exact IH].
Qed.

Lemma find_snoc :
  forall (A : Type) (f : A -> bool) (l : list A) x,
    find f (l ++ [x])
    = match find f l with
      | Some y => Some y
      | None => if f x then Some x else None
      end.
Proof.
  intros A f l x. induction l as [|y l IH]; cbn; [reflexivity|].
  destruct (f y); [reflexivity|exact IH].
Qed.

Lemma existsb_true_in :
  forall (A : Type) (g : A -> string) (l : list A) key,
    existsb (fun u => String.eqb (g u) key) l = true ->
    exists u, In u l /\ g u = key.
Proof.
  intros A g l key H. apply existsb_exists in H.
  destruct H as (u & Hin & Hu). exists u. split; [exact Hin|].
  apply String.eqb_eq, Hu.
Qed.

(** X19.  [create_user] either refuses and leaves the table as it was
    (the role is not one of the two roles, or the student id or the
    username is already taken), or it stores an active account under the
    next id, which [get_user_by_username] then finds with the data given,
    while every other username resolves as before. *)
Theorem X19_create_user_outcome :
  forall t sid name uname pw role now,
    let t' := fst (create_user t sid name uname pw role now) in
    let r := snd (create_user t sid name uname pw role now) in
    (r = None ->
     t' = t
     /\ (role_check role = false
         \/ (exists u, In u (user_rows t) /\ user_student_id u = sid)
         \/ (exists u, In u (user_rows t) /\ user_username u = uname)))
    /\ (forall id, r = Some id ->
          id = user_seq t + 1
          /\ user_seq t' = id
          /\ get_user_by_username t uname = None
          /\ get_user_by_username t' uname
             = Some {| user_id := id;
                       user_student_id := sid;
                       user_name := name;
                       user_username := uname;
                       user_password := pw;
                       user_role := role;
                       user_is_active := true;
                       user_created_at := now |}
          /\ forall other, other <> uname ->
               get_user_by_username t' other = get_user_by_username t other).
Proof.
  intros t sid name uname pw role now. cbn zeta. unfold create_user.
  destruct (role_check role) eqn:Hrole; cbn [andb].
  2:{ cbn [fst snd]. split; [auto|discriminate]. }
  destruct (existsb (fun u => String.eqb (user_student_id u) sid) (user_rows t))
    eqn:Hsid; cbn [andb negb].
  { cbn [fst snd]. split; [|discriminate]. intros _. split; [reflexivity|].
    right. left. apply (existsb_true_in _ user_student_id), Hsid. }
  destruct (existsb (fun u => String.eqb (user_username u) uname) (user_rows t))
    eqn:Huname; cbn [negb].
  { cbn [fst snd]. split; [|discriminate]. intros _. split; [reflexivity|].
    right. right. apply (existsb_true_in _ user_username), Huname. }
  cbn [fst snd]. split; [discriminate|].
  intros id Hid. injection Hid as <-.
  assert (Hnone : get_user_by_username t uname = None)
    by (apply find_none_existsb, Huname).
  repeat split.
  - exact Hnone.
  - unfold get_user_by_username in *. cbn [user_rows].
    rewrite find_snoc, Hnone. cbn [user_username].
    rewrite String.eqb_refl. reflexivity.
  - intros other Hother. unfold get_user_by_username. cbn [user_rows].
    rewrite find_snoc. cbn [user_username].
    apply not_eq_sym in Hother. apply String.eqb_neq in Hother.
    rewrite Hother. destruct (find _ (user_rows t)); reflexivity.
Qed.

Lemma set_active_keeps :
  forall id active u,
    user_username (set_active id active u) = user_username u
    /\ user_student_id (set_active id active u) = user_student_id u
    /\ user_id (set_active id active u) = user_id u
    /\ user_password (set_active id active u) = user_password u.
Proof.
  intros id active u. unfold set_active.
  destruct (Z.eqb (user_id u) id); repeat split.
Qed.

Lemma find_map_set_active :
  forall id active uname l,
    find (fun u => String.eqb (user_username u) uname)
         (map (set_active id active) l)
    = option_map (set_active id active)
        (find (fun u => String.eqb (user_username u) uname) l).
Proof.
  intros id active uname l. induction l as [|u l IH]; cbn; [reflexivity|].
  destruct (set_active_keeps id active u) as (-> & _).
  destruct (String.eqb (user_username u) uname); [reflexivity|exact IH].
Qed.

Lemma find_unique_username :
  forall l u,
    NoDup (map user_username l) ->
    In u l ->
    find (fun v => String.eqb (user_username v) (user_username u)) l = Some u.
Proof.
  intros l u. induction l as [|v l IH]; intros Hnd Hin; [contradiction|].
  cbn. inversion Hnd as [|x xs Hnotin Hnd']; subst.
  destruct Hin as [->|Hin].
  - rewrite String.eqb_refl. reflexivity.
  - destruct (String.eqb (user_username v) (user_username u)) eqn:E.
    + exfalso. apply Hnotin. apply String.eqb_eq in E. rewrite E.
      apply in_map, Hin.
    + apply IH; assumption.
Qed.

(** X21.  A disabled account cannot log in: once [toggle_user_status]
    has switched an account of a well-formed table off, the login with
    its username is not authenticated, whatever password is entered and
    whatever the password check answers. *)
Theorem X21_disabled_account_cannot_log_in :
  forall verify_password session_id t u password,
    well_formed t ->
    In u (user_rows t) ->
    authenticated
      (login verify_password session_id
             (fst (toggle_user_status t (user_id u) false))
             (user_username u) password)
    = false.
Proof.
  intros verify_password session_id t u password (Hu & _) Hin.
  unfold login.
  destruct (String.eqb (user_username u) "" || String.eqb password "");
    [reflexivity|].
  unfold get_user_by_username, toggle_user_status. cbn [fst user_rows].
  rewrite find_map_set_active, (find_unique_username _ u Hu Hin).
  cbn [option_map].
  destruct (verify_password password
              (user_password (set_active (user_id u) false u)));
    [|reflexivity].
  unfold set_active. rewrite Z.eqb_refl. reflexivity.
Qed.

Lemma two_users_well_formed : well_formed two_users.
Proof.
  unfold well_formed. cbn. repeat split.
  - constructor; [intros [H|[]]; discriminate|].
    constructor; [intros []|constructor].
  - constructor; [intros [H|[]]; discriminate|].
    constructor; [intros []|constructor].
  - constructor; [intros [H|[]]; discriminate|].
    constructor; [intros []|constructor].
  - repeat constructor; cbn; lia.
Qed.

Lemma X21_witness :
  authenticated
    (login accept_all "token"
           (fst (toggle_user_status two_users (user_id asha) false))
           (user_username asha) "secret")
  = false.
Proof.
  apply (X21_disabled_account_cannot_log_in accept_all "token" two_users asha
           "secret" two_users_well_formed).
  right. left. reflexivity.
Defined.

End UsersFacts.

(* ================================================================== *)
(** * More about the orchestrator *)
(* ================================================================== *)

Module AttendanceMore.

Local Open Scope R_scope.
Local Open Scope string_scope.
Local Open Scope list_scope.
Import Np NpFacts Database DatabaseFacts Attendance Samples.

(** The row written by a completed cycle, read off the three return
    paths. *)
Lemma process_attendance_row :
  forall frame detector embedder liveness_detector thr db clock
         result error db',
    process_attendance frame detector embedder liveness_detector thr db clock
    = Some ((result, error), db') ->
    students db' = students db
    /\ exists row,
         attendance_logs db' = attendance_logs db ++ [row]
         /\ row_timestamp row = now clock
         /\ row_processing_time_ms row = (t_end clock - t_start clock) * 1000
         /\ match result with
            | Some r =>
                error = None
                /\ row_student_id row = student_id r
                /\ row_similarity_score row = Some (similarity_score r)
                /\ row_status row
                   = match student_id r with
                     | Some _ => "SUCCESS"
                     | None => "FAILURE"
                     end
                /\ processing_time r = row_processing_time_ms row
            | None =>
                (exists message, error = Some message /\ message <> "")
                /\ row_student_id row = None
                /\ row_similarity_score row = Some 0
                /\ row_status row = "FAILURE"
            end.
Proof.
  intros frame detector embedder liveness_detector thr db clock
         result error db' H.
  unfold process_attendance in H.
  destruct (Detector.detect_single_face detector frame)
    as [[[face_crop info]|]|]; [| |discriminate].
  - destruct (Embedder.generate_embedding embedder (Some face_crop)) as [emb|].
    + destruct (Matcher.match_1_to_n thr emb (get_all_embeddings db)
                  (t_search_start clock) (t_search_end clock))
        as [[[[sid name] score] search]|]; [|discriminate].
      injection H as <- <- <-.
      destruct sid; (split; [reflexivity|]); eexists;
        (split; [reflexivity|]); cbn; repeat split.
    + injection H as <- <- <-. split; [reflexivity|]. eexists.
      split; [reflexivity|]. cbn. repeat split.
      exists "Embedding generation failed". split; [reflexivity|discriminate].
  - injection H as <- <- <-. split; [reflexivity|]. eexists.
    split; [reflexivity|]. cbn. repeat split.
    exists "No face detected". split; [reflexivity|discriminate].
Qed.

(** X22.  The row a completed cycle appends mirrors what the cycle
    returns: the students are untouched; with a result, the row carries
    the result's identity, score and processing time, and its status is
    SUCCESS exactly when an identity was found; with an error message,
    the row is a FAILURE without identity and with score 0. *)
Theorem X22_logged_row_mirrors_result :
  forall frame detector embedder liveness_detector thr db clock
         result error db',
    process_attendance frame detector embedder liveness_detector thr db clock
    = Some ((result, error), db') ->
    students db' = students db
    /\ exists row,
         attendance_logs db' = attendance_logs db ++ [row]
         /\ row_timestamp row = now clock
         /\ row_processing_time_ms row = (t_end clock - t_start clock) * 1000
         /\ match result with
            | Some r =>
                error = None
                /\ row_student_id row = student_id r
                /\ row_similarity_score row = Some (similarity_score r)
                /\ row_status row
                   = match student_id r with
                     | Some _ => "SUCCESS"
                     | None => "FAILURE"
                     end
                /\ processing_time r = row_processing_time_ms row
            | None =>
                (exists message, error = Some message /\ message <> "")
                /\ row_student_id row = None
                /\ row_similarity_score row = Some 0
                /\ row_status row = "FAILURE"
            end.
Proof. exact process_attendance_row. Qed.

(** What the matcher said in a cycle that returned a result. *)
Lemma process_attendance_match :
  forall frame detector embedder liveness_detector thr db clock r error db',
    process_attendance frame detector embedder liveness_detector thr db clock
    = Some ((Some r, error), db') ->
    exists emb search_time,
      Matcher.match_1_to_n thr emb (students db)
        (t_search_start clock) (t_search_end clock)
      = Some (student_id r, student_name r, similarity_score r, search_time).
Proof.
  intros frame detector embedder liveness_detector thr db clock r error db' H.
  unfold process_attendance in H.
  destruct (Detector.detect_single_face detector frame)
    as [[[face_crop info]|]|]; [|discriminate|discriminate].
  destruct (Embedder.generate_embedding embedder (Some face_crop)) as [emb|];
    [|discriminate].
  unfold get_all_embeddings in H.
  destruct (Matcher.match_1_to_n thr emb (students db)
              (t_search_start clock) (t_search_end clock))
    as [[[[sid name] score] search]|] eqn:M; [|discriminate].
  injection H as <- _ _. cbn [student_id student_name similarity_score].
  exists emb, search. exact M.
Qed.

(** X23.  A cycle that returns an identity has found it among the
    enrolled students with a score that reaches the threshold, and the
    row it appends to the log is a [SUCCESS] row of that student: no
    [SUCCESS] is ever logged for an identity that is not enrolled. *)
Theorem X23_success_only_for_enrolled :
  forall frame detector embedder liveness_detector thr db clock r error db'
         sid,
    process_attendance frame detector embedder liveness_detector thr db clock
    = Some ((Some r, error), db') ->
    student_id r = Some sid ->
    In sid (map Matcher.cand_id (students db))
    /\ thr <= similarity_score r
    /\ exists row,
         attendance_logs db' = attendance_logs db ++ [row]
         /\ row_student_id row = Some sid
         /\ row_status row = "SUCCESS".
Proof.
  intros frame detector embedder liveness_detector thr db clock r error db'
         sid H Hsid.
  destruct (process_attendance_match _ _ _ _ _ _ _ _ _ _ H)
    as (emb & search_time & M).
  rewrite Hsid in M.
  destruct (MatcherMore.matched_identity_enrolled _ _ _ _ _ _ _ _ _ M)
    as (i & nm & e & Hi & _ & _ & Hthr & _).
  destruct (process_attendance_row _ _ _ _ _ _ _ _ _ _ H)
    as (_ & row & Hrows & Hts & _ & _ & Hid & _ & Hst & _).
  rewrite Hsid in Hid, Hst.
  repeat split.
  - apply in_map_iff. exists (sid, nm, e). split; [reflexivity|].
    apply (nth_error_In _ _ Hi).
  - exact Hthr.
  - exists row. repeat split; assumption.
Qed.

(** X24.  A cycle changes the answer of [check_attendance_today] for
    nobody but the student it returns: after a cycle without identity
    the answer is the same for every student, at every instant. *)
Theorem X24_cycle_marks_nobody_else :
  forall frame detector embedder liveness_detector thr db clock
         result error db' sid at_time,
    process_attendance frame detector embedder liveness_detector thr db clock
    = Some ((result, error), db') ->
    (forall r, result = Some r -> student_id r <> Some sid) ->
    check_attendance_today db' sid at_time
    = check_attendance_today db sid at_time.
Proof.
  intros frame detector embedder liveness_detector thr db clock
         result error db' sid at_time H Hother.
  destruct (process_attendance_row _ _ _ _ _ _ _ _ _ _ H)
    as (_ & row & Hrows & _ & _ & Hres).
  assert (Hrow : row_student_id row <> Some sid).
  { destruct result as [r|].
    - destruct Hres as (_ & -> & _). apply Hother. reflexivity.
    - destruct Hres as (_ & -> & _). discriminate. }
  unfold check_attendance_today. rewrite Hrows, filter_app.
  cbn [filter]. unfold marked_today at 2, same_student.
  destruct (row_student_id row) as [s|]; cbn [andb].
  - destruct (String.eqb s sid) eqn:E.
    + apply String.eqb_eq in E. congruence.
    + cbn [andb]. rewrite app_nil_r. reflexivity.
  - rewrite app_nil_r. reflexivity.
Qed.

Lemma X22_witness :
  students (with_log ([] ++ [success_row])) = students (with_log [])
  /\ exists row,
       attendance_logs (with_log ([] ++ [success_row]))
       = attendance_logs (with_log []) ++ [row]
       /\ row_timestamp row = now tick
       /\ row_processing_time_ms row = (t_end tick - t_start tick) * 1000
       /\ ((None : option string) = None
           /\ row_student_id row = student_id matched_result
           /\ row_similarity_score row
              = Some (similarity_score matched_result)
           /\ row_status row = "SUCCESS"
           /\ processing_time matched_result = row_processing_time_ms row).
Proof.
  apply (X22_logged_row_mirrors_result (frame_rows 1) row_detector
           sized_embedder still_mesh Config.COSINE_SIMILARITY_THRESHOLD
           (with_log []) tick (Some matched_result) None
           (with_log ([] ++ [success_row]))).
  apply AttendanceFacts.match_cycle.
Defined.

Lemma X23_witness :
  In "S001" (map Matcher.cand_id (students (with_log [])))
  /\ Config.COSINE_SIMILARITY_THRESHOLD <= 1
  /\ exists row,
       attendance_logs (with_log ([] ++ [success_row]))
       = attendance_logs (with_log []) ++ [row]
       /\ row_student_id row = Some "S001"
       /\ row_status row = "SUCCESS".
Proof.
  apply (X23_success_only_for_enrolled (frame_rows 1) row_detector
           sized_embedder still_mesh Config.COSINE_SIMILARITY_THRESHOLD
           (with_log []) tick matched_result
           None (with_log ([] ++ [success_row])) "S001").
  - apply AttendanceFacts.match_cycle.
  - reflexivity.
Defined.

Lemma X24_witness :
  check_attendance_today (with_log ([success_row] ++ [failure_row]))
    "S001" 2000
  = check_attendance_today (with_log [success_row]) "S001" 2000.
Proof.
  apply (X24_cycle_marks_nobody_else (frame_rows 4) row_detector
           sized_embedder still_mesh Config.COSINE_SIMILARITY_THRESHOLD
           (with_log [success_row]) tick None (Some "No face detected")
           (with_log ([success_row] ++ [failure_row])) "S001" 2000%Z).
  - apply AttendanceFacts.no_face_cycle.
  - intros r Hr. discriminate.
Defined.

(** ** The monitoring loop *)

(** X25.  A frame without a blink, or with a blink no more than two
    seconds after the last trigger, starts nothing: the pass leaves the
    session state and the database exactly as they were and goes on to
    the next frame. *)
Theorem X25_no_trigger_inside_cooldown :
  forall frame face_mesh detector embedder liveness_detector thr state db
         current_time clock result_time is_blinking ear_value,
    detect_blink frame face_mesh = Some (is_blinking, ear_value) ->
    is_blinking = false \/ current_time - last_blink_time state <= 2 ->
    scan_iteration (Some frame) face_mesh detector embedder liveness_detector
      thr state db current_time clock result_time
    = Some (state, db, NextFrame).
Proof.
  intros frame face_mesh detector embedder liveness_detector thr state db
         current_time clock result_time is_blinking ear_value Hb Hno.
  unfold scan_iteration. rewrite Hb.
  destruct Hno as [->|Hcool]; [reflexivity|].
  unfold Liveness.Rgtb.
  destruct (Rgt_dec (current_time - last_blink_time state) 2) as [G|_];
    [lra|].
  rewrite andb_false_r. reflexivity.
Qed.

(** X26.  A blink more than two seconds after the last trigger runs
    exactly one attendance cycle on the frame of the blink: if the pass
    completes, it ends in a rerun with the database that this one call
    of [process_attendance] left, one row longer, and with the time of
    the trigger recorded as the last one.  When the call returned a
    result, the session goes into processing with that result on
    display from [result_time]; when it returned an error, the session
    is not processing and keeps what it displayed before. *)
Theorem X26_trigger_runs_one_cycle :
  forall frame face_mesh detector embedder liveness_detector thr state db
         current_time clock result_time ear_value state' db' exit,
    detect_blink frame face_mesh = Some (true, ear_value) ->
    current_time - last_blink_time state > 2 ->
    scan_iteration (Some frame) face_mesh detector embedder liveness_detector
      thr state db current_time clock result_time
    = Some (state', db', exit) ->
    exists result error,
      process_attendance frame detector embedder liveness_detector thr db
        clock
      = Some ((result, error), db')
      /\ exit = Rerun
      /\ (exists row, attendance_logs db' = attendance_logs db ++ [row])
      /\ match result with
         | Some r =>
             error = None
             /\ state' = {| processing := true;
                            last_result_time := result_time;
                            result_data := Some r;
                            blink_detected := true;
                            last_blink_time := current_time |}
         | None =>
             (exists message, error = Some message /\ message <> "")
             /\ state' = {| processing := false;
                            last_result_time := last_result_time state;
                            result_data := result_data state;
                            blink_detected := false;
                            last_blink_time := current_time |}
         end.
Proof.
  intros frame face_mesh detector embedder liveness_detector thr state db
         current_time clock result_time ear_value state' db' exit Hb Hlate H.
  unfold scan_iteration in H. rewrite Hb in H.
  unfold Liveness.Rgtb in H.
  destruct (Rgt_dec (current_time - last_blink_time state) 2) as [_|N];
    [|contradiction].
  cbn [andb] in H.
  destruct (process_attendance frame detector embedder liveness_detector thr
              db clock) as [[[result error] db1]|] eqn:P; [|discriminate].
  destruct (process_attendance_row _ _ _ _ _ _ _ _ _ _ P)
    as (_ & row & Hrows & _ & _ & Hres).
  exists result, error.
  destruct result as [r|].
  - destruct Hres as (-> & _). cbn [truthy] in H.
    injection H as <- <- <-.
    repeat split. exists row. exact Hrows.
  - destruct Hres as ((message & -> & Hmsg) & _). cbn [truthy] in H.
    pose proof Hmsg as Hmsg'.
    apply String.eqb_neq in Hmsg'. rewrite Hmsg' in H. cbn [negb] in H.
    injection H as <- <- <-.
    repeat split.
    + exists row. exact Hrows.
    + exists message. split; [reflexivity|exact Hmsg].
Qed.

Lemma norm_on_x_axis :
  forall a b, norm [a - b; 0 - 0] = Rabs (a - b).
Proof.
  intros a b. unfold norm. cbn [dot].
  replace ((a - b) * (a - b) + ((0 - 0) * (0 - 0) + 0)) with (Rsqr (a - b))
    by (unfold Rsqr; ring).
  apply sqrt_Rsqr_abs.
Qed.

Lemma Rltb_intro : forall a b, a < b -> Rltb a b = true.
Proof.
  intros a b H. unfold Rltb. destruct (Rlt_dec a b); [reflexivity|contradiction].
Qed.

Lemma true_divide_some :
  forall a b, b <> 0 -> true_divide a b = Some (a / b).
Proof.
  intros a b H. unfold true_divide.
  destruct (Req_dec_T b 0); [contradiction|reflexivity].
Qed.

Lemma narrow_eye_left :
  calculate_ear narrow_eye_landmarks LEFT_EYE = Some (Some (21 / 200)).
Proof.
  unfold calculate_ear.
  replace (Liveness.take_indices narrow_eye_landmarks LEFT_EYE)
    with (Some [(33, 0, 0); (160, 0, 0); (158, 0, 0);
                (133, 0, 0); (153, 0, 0); (144, 0, 0)])
    by reflexivity.
  cbn [point_sub_xy]. rewrite !norm_on_x_axis.
  replace (160 - 144) with 16 by ring.
  replace (158 - 153) with 5 by ring.
  replace (33 - 133) with (- (100)) by ring.
  rewrite Rabs_Ropp, !Rabs_pos_eq by lra.
  rewrite true_divide_some by lra. do 2 f_equal. field.
Qed.

Lemma narrow_eye_right :
  calculate_ear narrow_eye_landmarks RIGHT_EYE = Some (Some (19 / 198)).
Proof.
  unfold calculate_ear.
  replace (Liveness.take_indices narrow_eye_landmarks RIGHT_EYE)
    with (Some [(362, 0, 0); (385, 0, 0); (387, 0, 0);
                (263, 0, 0); (373, 0, 0); (380, 0, 0)])
    by reflexivity.
  cbn [point_sub_xy]. rewrite !norm_on_x_axis.
  replace (385 - 380) with 5 by ring.
  replace (387 - 373) with 14 by ring.
  replace (362 - 263) with 99 by ring.
  rewrite !Rabs_pos_eq by lra.
  rewrite true_divide_some by lra. do 2 f_equal. field.
Qed.

Lemma narrow_eye_blinks :
  detect_blink (frame_rows 1) narrow_eye_mesh
  = Some (true, Some ((21 / 200 + 19 / 198) / 2)).
Proof.
  unfold detect_blink.
  change (Cv.cvtColor (frame_rows 1)) with
    (Some {| Cv.shape_h := 1; Cv.shape_w := 1;
             Cv.at_ := fun r c =>
                         let '(b, g, r') := Cv.at_ (frame_rows 1) r c in
                         (r', g, b) |}).
  cbv beta iota. unfold narrow_eye_mesh.
  rewrite narrow_eye_left, narrow_eye_right. cbn [average].
  rewrite Rltb_intro; [reflexivity|]. unfold BLINK_THRESHOLD. lra.
Qed.

(** Eye corners that coincide give a ratio that is not a number, and no
    blink. *)
Lemma collapsed_eyes_do_not_blink :
  detect_blink (frame_rows 1) collapsed_mesh = Some (false, None).
Proof.
  unfold detect_blink.
  change (Cv.cvtColor (frame_rows 1)) with
    (Some {| Cv.shape_h := 1; Cv.shape_w := 1;
             Cv.at_ := fun r c =>
                         let '(b, g, r') := Cv.at_ (frame_rows 1) r c in
                         (r', g, b) |}).
  cbv beta iota. unfold collapsed_mesh, calculate_ear.
  replace (Liveness.take_indices still_landmarks LEFT_EYE)
    with (Some (repeat ((0, 0, 0) : Liveness.Point) 6)) by reflexivity.
  replace (Liveness.take_indices still_landmarks RIGHT_EYE)
    with (Some (repeat ((0, 0, 0) : Liveness.Point) 6)) by reflexivity.
  cbn [repeat point_sub_xy]. rewrite !norm_on_x_axis.
  unfold true_divide.
  destruct (Req_dec_T (2 * Rabs (0 - 0)) 0) as [_|N]; [reflexivity|].
  exfalso. apply N. rewrite Rminus_diag, Rabs_R0. ring.
Qed.

(** A frame without pixels stops the monitoring loop with an exception. *)
Lemma detect_blink_empty_frame :
  forall frame face_mesh,
    Cv.size frame = 0%Z -> detect_blink frame face_mesh = None.
Proof.
  intros frame face_mesh H. unfold detect_blink.
  rewrite (DetectorFacts.cvtColor_none frame H). reflexivity.
Qed.

Lemma X25_witness :
  scan_iteration (Some (frame_rows 1)) narrow_eye_mesh row_detector
    sized_embedder still_mesh Config.COSINE_SIMILARITY_THRESHOLD
    cooling_state (with_log []) 6 tick 7
  = Some (cooling_state, with_log [], NextFrame).
Proof.
  apply (X25_no_trigger_inside_cooldown (frame_rows 1) narrow_eye_mesh
           row_detector sized_embedder still_mesh
           Config.COSINE_SIMILARITY_THRESHOLD cooling_state (with_log [])
           6 tick 7 true (Some ((21 / 200 + 19 / 198) / 2))).
  - apply narrow_eye_blinks.
  - right. cbn. lra.
Defined.

Lemma triggered_run :
  scan_iteration (Some (frame_rows 1)) narrow_eye_mesh row_detector
    sized_embedder still_mesh Config.COSINE_SIMILARITY_THRESHOLD
    fresh_state (with_log []) 5 tick 6
  = Some (triggered_state, with_log ([] ++ [success_row]), Rerun).
Proof.
  unfold scan_iteration. rewrite narrow_eye_blinks.
  unfold Liveness.Rgtb.
  destruct (Rgt_dec (5 - last_blink_time fresh_state) 2) as [_|N].
  2:{ exfalso. apply N. cbn. lra. }
  cbn [andb]. rewrite AttendanceFacts.match_cycle. reflexivity.
Qed.

Lemma X26_witness :
  exists result error,
    process_attendance (frame_rows 1) row_detector sized_embedder still_mesh
      Config.COSINE_SIMILARITY_THRESHOLD (with_log []) tick
    = Some ((result, error), with_log ([] ++ [success_row]))
    /\ Rerun = Rerun
    /\ (exists row,
          attendance_logs (with_log ([] ++ [success_row]))
          = attendance_logs (with_log []) ++ [row])
    /\ match result with
       | Some r =>
           error = None
           /\ triggered_state = {| processing := true;
                                   last_result_time := 6;
                                   result_data := Some r;
                                   blink_detected := true;
                                   last_blink_time := 5 |}
       | None =>
           (exists message, error = Some message /\ message <> "")
           /\ triggered_state
              = {| processing := false;
                   last_result_time := last_result_time fresh_state;
                   result_data := result_data fresh_state;
                   blink_detected := false;
                   last_blink_time := 5 |}
       end.
Proof.
  apply (X26_trigger_runs_one_cycle (frame_rows 1) narrow_eye_mesh
           row_detector sized_embedder still_mesh
           Config.COSINE_SIMILARITY_THRESHOLD fresh_state (with_log [])
           5 tick 6 (Some ((21 / 200 + 19 / 198) / 2))
           triggered_state (with_log ([] ++ [success_row])) Rerun).
  - apply narrow_eye_blinks.
  - cbn. lra.
  - exact triggered_run.
Defined.

(** ** The two eye aspect ratios *)

Lemma take_indices_from :
  forall landmarks indices ps,
    Liveness.take_indices landmarks indices = Some ps ->
    length ps = length indices /\ forall p, In p ps -> In p landmarks.
Proof.
  intros landmarks indices. induction indices as [|i rest IH]; intros ps H.
  - cbn in H. injection H as <-. split; [reflexivity|intros p []].
  - cbn [Liveness.take_indices] in H.
    destruct (nth_error landmarks i) as [q|] eqn:E; [|discriminate].
    destruct (Liveness.take_indices landmarks rest) as [qs|]; [|discriminate].
    injection H as <-. destruct (IH qs eq_refl) as (Hlen & Hin).
    split; [cbn; rewrite Hlen; reflexivity|].
    intros p [<-|Hp]; [apply (nth_error_In _ _ E)|apply Hin, Hp].
Qed.

Lemma norm_planar :
  forall (p q : Liveness.Point),
    snd p = snd q ->
    norm (Liveness.point_sub p q) = norm (point_sub_xy p q).
Proof.
  intros [[px py] pz] [[qx qy] qz] H. cbn in H. subst qz.
  unfold norm, Liveness.point_sub, point_sub_xy. cbn [dot]. f_equal. ring.
Qed.

(** X27.  The blink trigger computes the eye aspect ratio from [x] and
    [y] only, the liveness check from [x], [y] and [z]: on landmarks that
    all have the same depth the two agree, for any six eye indices. *)
Theorem X27_planar_landmarks_same_ear :
  forall landmarks (eye_indices : list nat) depth,
    length eye_indices = 6%nat ->
    (forall p : Liveness.Point, In p landmarks -> snd p = depth) ->
    calculate_ear landmarks eye_indices
    = Liveness._calculate_ear landmarks eye_indices.
Proof.
  intros landmarks eye_indices depth H6 Hflat.
  unfold calculate_ear, Liveness._calculate_ear.
  destruct (Liveness.take_indices landmarks eye_indices) as [ps|] eqn:E;
    [|reflexivity].
  destruct (take_indices_from landmarks eye_indices ps E) as (Hlen & Hin).
  rewrite H6 in Hlen.
  destruct ps as [|p0 [|p1 [|p2 [|p3 [|p4 [|p5 [|p6 ps]]]]]]];
    cbn in Hlen; try discriminate.
  assert (Hz : forall p, In p [p0; p1; p2; p3; p4; p5] -> snd p = depth)
    by (intros p Hp; apply Hflat, Hin, Hp).
  rewrite !norm_planar; [reflexivity| | |].
  - rewrite (Hz p0), (Hz p3); cbn; auto 10.
  - rewrite (Hz p2), (Hz p4); cbn; auto 10.
  - rewrite (Hz p1), (Hz p5); cbn; auto 10.
Qed.

Lemma X27_witness :
  calculate_ear narrow_eye_landmarks LEFT_EYE
  = Liveness._calculate_ear narrow_eye_landmarks LEFT_EYE.
Proof.
  apply (X27_planar_landmarks_same_ear narrow_eye_landmarks LEFT_EYE 0).
  - reflexivity.
  - intros p Hp. unfold narrow_eye_landmarks in Hp.
    apply in_map_iff in Hp. destruct Hp as (i & <- & _). reflexivity.
Defined.

End AttendanceMore.
